(** * stock-crypto-tui: change calculator, series sampler and ticker batch

    A shallow embedding of [StockCryptoTUI] (src/stock_crypto_tui.py):
    [calculate_changes], [calculate_ytd_change], [get_friday_data],
    [get_crypto_friday_data], [get_stock_data], [get_crypto_data] and
    [display_grid], followed by the properties of the specification that
    concern them.

    Conventions of the embedding.
    - Prices and percentages are IEEE binary64 numbers (Python [float],
      [numpy.float64]): Rocq's primitive [float].  Arithmetic on values
      read from a pandas column is numpy's (a division by zero yields an
      infinity or a NaN); arithmetic on plain Python numbers raises
      [ZeroDivisionError] on a zero divisor.
    - Instants are integers.  [datetime.now()] and the dates of an equity
      frame are microseconds since the epoch; the timestamps of the crypto
      history are milliseconds since the epoch, as the provider sends them.
      The local time zone is taken to be UTC.
    - The index of an equity frame is naive or tz-aware; yfinance returns
      it tz-aware, localized to the exchange.  Comparing a tz-aware index
      with the naive [datetime.now()] raises [TypeError] in pandas; reading
      [.year] or [.weekday] of it does not.
    - A Python exception is a value [Raise e] of [result]; [try/except]
      is a match on it.
    - Console output is the list of lines printed, in order.  The fetchers
      and the grid are given twice: first as the pass on a console that
      renders every line it is handed, then, under the names ending in
      [_on], call by call on a console on which [console.print] may raise
      [MarkupError]. *)

From Stdlib Require Import ZArith Lia Floats Ascii String.
From stdpp Require Import base option list strings gmap sorting.

Set Default Proof Using "Type".

(* ===================================================================== *)
(** ** Python values, exceptions and sequences *)
(* ===================================================================== *)

Module Py.

Inductive exn : Type :=
| IndexError
| KeyError
| TypeError
| ZeroDivisionError
| RequestException
| MarkupError.

Inductive result (A : Type) : Type :=
| Ok (a : A)
| Raise (e : exn).
Arguments Ok {A} a.
Arguments Raise {A} e.

Definition bind {A B} (m : result A) (k : A -> result B) : result B :=
  match m with
  | Ok a => k a
  | Raise e => Raise e
  end.

Definition is_ok {A} (m : result A) : bool :=
  match m with Ok _ => true | Raise _ => false end.

(** [l[i]] and [column.iloc[i]]: a negative index counts from the end,
    an index outside the sequence raises [IndexError]. *)
Definition iloc {A} (l : list A) (i : Z) : result A :=
  let n := Z.of_nat (length l) in
  let j := if (i <? 0)%Z then (i + n)%Z else i in
  if ((0 <=? j) && (j <? n))%Z then
    match l !! Z.to_nat j with
    | Some x => Ok x
    | None => Raise IndexError
    end
  else Raise IndexError.

(** [column.tail(n)]: the last [n] entries, all of them when there are
    fewer. *)
Definition tail {A} (n : nat) (l : list A) : list A :=
  drop (length l - n) l.

(** [range(0, stop, step)] for a positive [step]. *)
Definition range_step (stop step : nat) : list nat :=
  (fun k => k * step) <$> seq 0 ((stop + step - 1) / step).

(** [d[k]] on a dict. *)
Definition getitem {V} (d : gmap string V) (k : string) : result V :=
  match d !! k with
  | Some v => Ok v
  | None => Raise KeyError
  end.

(** [d.get(k, default)]. *)
Definition get {V} (d : gmap string V) (k : string) (default : V) : V :=
  match d !! k with
  | Some v => v
  | None => default
  end.

(** [s.upper()] and [s.lower()] on ASCII text; other bytes are left as
    they are. *)
Definition upper_ascii (c : ascii) : ascii :=
  let n := nat_of_ascii c in
  if (97 <=? n)%nat && (n <=? 122)%nat then ascii_of_nat (n - 32) else c.

Definition lower_ascii (c : ascii) : ascii :=
  let n := nat_of_ascii c in
  if (65 <=? n)%nat && (n <=? 90)%nat then ascii_of_nat (n + 32) else c.

Fixpoint upper (s : string) : string :=
  match s with
  | EmptyString => EmptyString
  | String c s' => String (upper_ascii c) (upper s')
  end.

Fixpoint lower (s : string) : string :=
  match s with
  | EmptyString => EmptyString
  | String c s' => String (lower_ascii c) (lower s')
  end.

End Py.

Import Py.

Notation "'let*' x ':=' m 'in' k" := (Py.bind m (fun x => k))
  (at level 10, x name, m at level 100, k at level 200).

(* ===================================================================== *)
(** ** The calendar behind [datetime] *)
(* ===================================================================== *)

Module Calendar.

Definition us_per_day : Z := 86400000000.
Definition ms_per_day : Z := 86400000.

(** Days since 1970-01-01 of the civil date [y]-[m]-[d] (proleptic
    Gregorian calendar). *)
Definition days_from_civil (y m d : Z) : Z :=
  let y' := if (m <=? 2)%Z then (y - 1)%Z else y in
  let era := (y' / 400)%Z in
  let yoe := (y' - era * 400)%Z in
  let mp := if (2 <? m)%Z then (m - 3)%Z else (m + 9)%Z in
  let doy := ((153 * mp + 2) / 5 + d - 1)%Z in
  let doe := (yoe * 365 + yoe / 4 - yoe / 100 + doy)%Z in
  (era * 146097 + doe - 719468)%Z.

(** The civil year of a day number. *)
Definition year_of_days (days : Z) : Z :=
  let z := (days + 719468)%Z in
  let era := (z / 146097)%Z in
  let doe := (z - era * 146097)%Z in
  let yoe := ((doe - doe / 1460 + doe / 36524 - doe / 146096) / 365)%Z in
  let doy := (doe - (365 * yoe + yoe / 4 - yoe / 100))%Z in
  let mp := ((5 * doy + 2) / 153)%Z in
  let m := if (mp <? 10)%Z then (mp + 3)%Z else (mp - 9)%Z in
  (yoe + era * 400 + (if (m <=? 2)%Z then 1 else 0))%Z.

(** [t.year] of an instant in microseconds. *)
Definition year (t : Z) : Z := year_of_days (t / us_per_day).

(** [t.weekday()]: Monday is 0, Friday is 4; 1970-01-01 was a Thursday. *)
Definition weekday (t : Z) : Z := ((t / us_per_day + 3) mod 7)%Z.

(** [datetime(y, 1, 1).timestamp() * 1000]. *)
Definition year_start_ms (y : Z) : Z := (days_from_civil y 1 1 * ms_per_day)%Z.

(** [timedelta(days=n)] in microseconds. *)
Definition timedelta_days (n : Z) : Z := (n * us_per_day)%Z.

End Calendar.

(* ===================================================================== *)
(** ** Data model *)
(* ===================================================================== *)

(** A row of the equity frame returned by [stock.history]: the index entry
    and the [Close] column. *)
Record Row : Type := mkRow { date : Z; Close : float }.

(** The frame, oldest row first. *)
Abbreviation DataFrame := (list Row).

(** The [Close] column. *)
Definition closes (hist_data : DataFrame) : list float := Close <$> hist_data.

(** [hist_data.empty] and [not price_data]. *)
Definition empty {A} (l : list A) : bool :=
  match l with [] => true | _ => false end.

(** The dict built by [calculate_changes]: keys '24h', '7d', '30d', 'ytd'. *)
Record ChangeSet : Type := mkChanges {
  h24 : float;
  d7 : float;
  d30 : float;
  ytd : float
}.

Inductive Kind : Type := stock | crypto.

(** The dict returned by the two fetchers. *)
Record Snapshot : Type := mkSnapshot {
  ticker : string;
  current_price : float;
  changes : ChangeSet;
  friday_data : list float;
  type : Kind
}.

(* ===================================================================== *)
(** ** Change calculator *)
(* ===================================================================== *)

(** [((current_price - anchor) / anchor) * 100] in binary64 arithmetic. *)
Definition pct_change (current_price anchor : float) : float :=
  PrimFloat.mul (PrimFloat.div (PrimFloat.sub current_price anchor) anchor) 100%float.

(** The same expression on plain Python numbers: [/] raises on a zero
    divisor. *)
Definition py_pct_change (current_price anchor : float) : result float :=
  if PrimFloat.eqb anchor 0%float then Raise ZeroDivisionError
  else Ok (pct_change current_price anchor).

(** Lines 203-206. *)
Definition change_24h (hist_data : DataFrame) (current_price : float) : result float :=
  if (2 <=? length hist_data)%nat then
    let* a := iloc (closes hist_data) (-2)%Z in Ok (pct_change current_price a)
  else Ok 0%float.

(** Lines 209-212. *)
Definition change_7d (hist_data : DataFrame) (current_price : float) : result float :=
  if (7 <=? length hist_data)%nat then
    let* a := iloc (closes hist_data) (-8)%Z in Ok (pct_change current_price a)
  else Ok 0%float.

(** Lines 215-218. *)
Definition change_30d (hist_data : DataFrame) (current_price : float) : result float :=
  if (30 <=? length hist_data)%nat then
    let* a := iloc (closes hist_data) (-31)%Z in Ok (pct_change current_price a)
  else Ok 0%float.

(** [hist_data[hist_data.index.year == current_year]]. *)
Definition ytd_rows (now : Z) (hist_data : DataFrame) : DataFrame :=
  List.filter (fun r => (Calendar.year (date r) =? Calendar.year now)%Z) hist_data.

(** Lines 221-230. *)
Definition change_ytd (now : Z) (hist_data : DataFrame) (current_price : float)
  : result float :=
  let ytd_data := ytd_rows now hist_data in
  if negb (empty ytd_data) then
    let* a := iloc (closes ytd_data) 0%Z in Ok (pct_change current_price a)
  else if negb (empty hist_data) then
    let* a := iloc (closes hist_data) 0%Z in Ok (pct_change current_price a)
  else Ok 0%float.

Definition calculate_changes (now : Z) (hist_data : DataFrame) (current_price : float)
  : result ChangeSet :=
  if empty hist_data then Ok (mkChanges 0 0 0 0)
  else
    let* c24 := change_24h hist_data current_price in
    let* c7 := change_7d hist_data current_price in
    let* c30 := change_30d hist_data current_price in
    let* cy := change_ytd now hist_data current_price in
    Ok (mkChanges c24 c7 c30 cy).

(** The [for ... break] loop of [calculate_ytd_change]: the price of the
    first pair whose timestamp is at or after [year_start]. *)
Fixpoint first_price_from (year_start : Z) (price_data : list (Z * float))
  : option float :=
  match price_data with
  | [] => None
  | (timestamp, price) :: rest =>
      if (year_start <=? timestamp)%Z then Some price
      else first_price_from year_start rest
  end.

Definition calculate_ytd_change (now : Z) (price_data : list (Z * float))
    (current_price : float) : result float :=
  if empty price_data then Ok 0%float
  else
    let current_year := Calendar.year now in
    let year_start := Calendar.year_start_ms current_year in
    match first_price_from year_start price_data with
    | None => Ok 0%float
    | Some year_start_price => py_pct_change current_price year_start_price
    end.

(* ===================================================================== *)
(** ** Series sampler *)
(* ===================================================================== *)

(** [datetime.now() - timedelta(days=90)]. *)
Definition three_months_ago (now : Z) : Z := (now - Calendar.timedelta_days 90)%Z.

(** [hist_data[hist_data.index >= three_months_ago]]. *)
Definition recent_rows (now : Z) (hist_data : DataFrame) : DataFrame :=
  List.filter (fun r => (three_months_ago now <=? date r)%Z) hist_data.

(** [recent_data[recent_data.index.weekday == 4]]. *)
Definition friday_rows (recent_data : DataFrame) : DataFrame :=
  List.filter (fun r => (Calendar.weekday (date r) =? 4)%Z) recent_data.

(** Line 262: the comparison [hist_data.index >= three_months_ago] and the
    selection by it.  [three_months_ago] is a naive [datetime]; on a
    tz-aware index the comparison raises [TypeError]. *)
Definition index_ge (tz_aware : bool) (now : Z) (hist_data : DataFrame)
  : result DataFrame :=
  if tz_aware then Raise TypeError else Ok (recent_rows now hist_data).

(** The body of the [try] of [get_friday_data] (lines 260-272). *)
Definition friday_window (tz_aware : bool) (now : Z) (hist_data : DataFrame)
  : result (list float) :=
  let* recent_data := index_ge tz_aware now hist_data in
  let friday_data := friday_rows recent_data in
  if negb (empty friday_data) then Ok (tail 12 (closes friday_data))
  else Ok (tail 12 (closes recent_data)).

(** [tz_aware] tells whether the index of [hist_data] is tz-aware. *)
Definition get_friday_data (tz_aware : bool) (now : Z) (hist_data : DataFrame)
  : list float :=
  if empty hist_data then []
  else
    match friday_window tz_aware now hist_data with
    | Ok prices => prices
    | Raise _ => tail 12 (closes hist_data)
    end.

(** [[(ts, price) for ts, price in price_data if ts >= three_months_ago_ts]]:
    [ts] is in milliseconds, [three_months_ago_ts] is
    [three_months_ago.timestamp() * 1000]. *)
Definition recent_prices (now : Z) (price_data : list (Z * float)) : list (Z * float) :=
  List.filter (fun p => (three_months_ago now <=? p.1 * 1000)%Z) price_data.

(** The loop of lines 290-292 over the indices [range(0, len(recent_data), 7)],
    [friday_data] being the list built so far. *)
Fixpoint sample_loop (recent_data : list (Z * float)) (indices : list nat)
    (friday_data : list float) : result (list float) :=
  match indices with
  | [] => Ok friday_data
  | i :: rest =>
      if (length friday_data <? 12)%nat then
        let* p := iloc recent_data (Z.of_nat i) in
        sample_loop recent_data rest (friday_data ++ [p.2])
      else sample_loop recent_data rest friday_data
  end.

Definition get_crypto_friday_data (now : Z) (price_data : list (Z * float))
  : result (list float) :=
  if empty price_data then Ok []
  else
    let recent_data := recent_prices now price_data in
    sample_loop recent_data (range_step (length recent_data) 7) [].

(* ===================================================================== *)
(** ** Fetchers and the ticker batch *)
(* ===================================================================== *)

(** What the outside world answers during one pass: the clock, yfinance
    ([stock.info], [stock.history(period="1y")] and whether the index of
    that frame is tz-aware) and the two CoinGecko endpoints, the second
    reduced to its ['prices'] entry.  A failed request or a malformed answer
    is a [Raise].  Numbers of the providers' answers are floats; a key may
    be absent, and a value of [stock.info] may be [None].  A JSON [null] in
    a CoinGecko quote is not represented. *)
Record World : Type := mkWorld {
  clock : Z;
  yf_info : string -> result (gmap string (option float));
  yf_history : string -> result DataFrame;
  yf_tz_aware : string -> bool;
  simple_price : string -> result (gmap string (gmap string float));
  market_chart : string -> result (list (Z * float))
}.

(** [default_config]: the entries the fetchers and the grid read. *)
Definition currency_default : string := "USD".
Definition max_tickers_per_row : nat := 4.

Record Panel : Type := mkPanel {
  title : string;
  content : Snapshot
}.

(** The lines [console.print] and [console.clear] produce. *)
Inductive Line : Type :=
| ClearScreen
| NoHistoricalData (ticker : string)
| InvalidPriceData (ticker : string)
| ErrorFetchingStock (ticker : string) (e : exn)
| ErrorFetchingCrypto (ticker : string) (e : exn)
| FailedToFetch (ticker : string)
| NoDataAvailable
| PanelRow (row_panels : list Panel)
| BlankLine.

(** ['k' in info and info['k'] is not None]. *)
Definition info_price (info : gmap string (option float)) (k : string) : option float :=
  match info !! k with
  | Some (Some p) => Some p
  | _ => None
  end.

(** Lines 83-91. *)
Definition resolve_current_price (info : gmap string (option float))
    (hist : DataFrame) : result (option float) :=
  match info_price info "currentPrice" with
  | Some p => Ok (Some p)
  | None =>
    match info_price info "regularMarketPrice" with
    | Some p => Ok (Some p)
    | None =>
      match info_price info "previousClose" with
      | Some p => Ok (Some p)
      | None => let* p := iloc (closes hist) (-1)%Z in Ok (Some p)
      end
    end
  end.

(** The body of the [try] of [get_stock_data]. *)
Definition stock_body (W : World) (ticker : string)
  : result (list Line * option Snapshot) :=
  let* info := yf_info W ticker in
  let* hist := yf_history W ticker in
  if empty hist then Ok ([NoHistoricalData ticker], None)
  else
    let* current_price := resolve_current_price info hist in
    match current_price with
    | None => Ok ([InvalidPriceData ticker], None)
    | Some price =>
        if PrimFloat.leb price 0%float then Ok ([InvalidPriceData ticker], None)
        else
          let* changes := calculate_changes (clock W) hist price in
          let friday_data := get_friday_data (yf_tz_aware W ticker) (clock W) hist in
          Ok ([], Some (mkSnapshot (upper ticker) price changes friday_data stock))
    end.

Definition get_stock_data (W : World) (ticker : string) : list Line * option Snapshot :=
  match stock_body W ticker with
  | Ok r => r
  | Raise e => ([ErrorFetchingStock ticker e], None)
  end.

Definition crypto_mapping : gmap string string :=
  list_to_map
    [ ("BTC", "bitcoin"); ("ETH", "ethereum"); ("ADA", "cardano");
      ("DOT", "polkadot"); ("LINK", "chainlink"); ("LTC", "litecoin");
      ("XRP", "ripple"); ("DOGE", "dogecoin"); ("SHIB", "shiba-inu");
      ("MATIC", "matic-network"); ("AVAX", "avalanche-2"); ("SOL", "solana");
      ("HBAR", "hedera-hashgraph") ].

(** [crypto_mapping.get(ticker.upper(), ticker.lower())]. *)
Definition coin_id_of (ticker : string) : string :=
  Py.get crypto_mapping (upper ticker) (lower ticker).

(** The body of the [try] of [get_crypto_data]. *)
Definition crypto_body (W : World) (ticker : string) : result (option Snapshot) :=
  let coin_id := coin_id_of ticker in
  let currency := lower currency_default in
  let* data := simple_price W coin_id in
  match data !! coin_id with
  | None => Ok None
  | Some coin_data =>
      let* current_price := getitem coin_data currency in
      let* prices := market_chart W coin_id in
      let* ytd_change := calculate_ytd_change (clock W) prices current_price in
      let changes :=
        mkChanges (Py.get coin_data (currency +:+ "_24h_change") 0%float)
                  (Py.get coin_data (currency +:+ "_7d_change") 0%float)
                  (Py.get coin_data (currency +:+ "_30d_change") 0%float)
                  ytd_change in
      let* friday_data := get_crypto_friday_data (clock W) prices in
      Ok (Some (mkSnapshot (upper ticker) current_price changes friday_data crypto))
  end.

Definition get_crypto_data (W : World) (ticker : string) : list Line * option Snapshot :=
  match crypto_body W ticker with
  | Ok r => ([], r)
  | Raise e => ([ErrorFetchingCrypto ticker e], None)
  end.

(** The list literal of line 406. *)
Definition crypto_tickers : list string :=
  [ "BTC"; "ETH"; "ADA"; "DOT"; "LINK"; "LTC"; "XRP"; "DOGE"; "SHIB";
    "MATIC"; "AVAX"; "SOL" ].

(** Which fetcher line 406 selects. *)
Definition provider_of (ticker : string) : Kind :=
  if bool_decide (upper ticker ∈ crypto_tickers) then crypto else stock.

Definition fetch (W : World) (ticker : string) : list Line * option Snapshot :=
  match provider_of ticker with
  | crypto => get_crypto_data W ticker
  | stock => get_stock_data W ticker
  end.

(** The loop of lines 405-414: the lines printed and the final [data_list],
    from the [data_list] built so far. *)
Fixpoint fetch_loop (W : World) (tickers : list string) (data_list : list Snapshot)
  : list Line * list Snapshot :=
  match tickers with
  | [] => ([], data_list)
  | ticker :: rest =>
      let (printed, data) := fetch W ticker in
      match data with
      | Some d =>
          let (later, final) := fetch_loop W rest (data_list ++ [d]) in
          (printed ++ later, final)
      | None =>
          let (later, final) := fetch_loop W rest data_list in
          (printed ++ FailedToFetch ticker :: later, final)
      end
  end.

(** [create_ticker_panel]: the panel shows the fields of the snapshot under
    the title [data['type'].title() + " Data"].  [format_price],
    [format_change] and [create_ascii_chart] turn these numbers into text;
    the text is left out.  On the floats of a [Snapshot] they return; they
    raise [TypeError] on a [None], which a JSON [null] of a CoinGecko quote
    would bring in and which [World] does not represent. *)
Definition create_ticker_panel (data : Snapshot) : Panel :=
  mkPanel (match type data with stock => "Stock Data" | crypto => "Crypto Data" end)
          data.

(** Lines 428-431: [panels[i:i + max_per_row]] for [i] in
    [range(0, len(panels), max_per_row)], each row followed by an empty
    line. *)
Definition print_rows (panels : list Panel) : list Line :=
  mjoin ((fun i => [PanelRow (take max_tickers_per_row (drop i panels)); BlankLine])
           <$> range_step (length panels) max_tickers_per_row).

(** The lines of [display_grid] when every call of [console.print]
    returns. *)
Definition display_grid (W : World) (tickers : list string) : list Line :=
  let (printed, data_list) := fetch_loop W tickers [] in
  if empty data_list then ClearScreen :: printed ++ [NoDataAvailable]
  else ClearScreen :: printed ++ print_rows (create_ticker_panel <$> data_list).

(* ===================================================================== *)
(** ** Fetchers and the ticker batch, call by call on the console *)
(* ===================================================================== *)

(** What a call has printed, and how it ended. *)
Definition Printed (A : Type) : Type := list Line * result A.

(** Sequencing: an exception ends the run; what was printed stays. *)
Definition and_then {A B} (m : Printed A) (k : A -> Printed B) : Printed B :=
  match m with
  | (out, Ok a) => let (later, r) := k a in (out ++ later, r)
  | (out, Raise e) => (out, Raise e)
  end.

(** [console.print(text)]: rich reads the text as markup and raises
    [MarkupError] on a closing tag that matches no open tag, printing
    nothing.  The texts of the fetchers and of the grid embed the ticker as
    the user typed it and the text of the exception caught, the panels the
    upper-cased ticker.  What rich makes of such a line is the parameter
    [rejects]: whether printing the line raises.  [console.clear()], the
    empty [console.print()] and the fixed text "No data available for any
    tickers" do not go through it. *)
Definition console_print (rejects : Line -> bool) (line : Line) : Printed unit :=
  if rejects line then ([], Raise MarkupError) else ([line], Ok tt).

Fixpoint print_lines (rejects : Line -> bool) (lines : list Line) : Printed unit :=
  match lines with
  | [] => ([], Ok tt)
  | line :: rest =>
      and_then (console_print rejects line) (fun _ => print_lines rejects rest)
  end.

(** The [except] clause of a fetcher: print the line, return [None].  An
    exception of this [console.print] leaves the fetcher. *)
Definition report_error (rejects : Line -> bool) (line : Line)
  : Printed (option Snapshot) :=
  and_then (console_print rejects line) (fun _ => ([], Ok None)).

(** [get_stock_data]: a line of the [try] that the console rejects raises
    inside the [try], like any other exception of the body. *)
Definition get_stock_data_on (rejects : Line -> bool) (W : World) (ticker : string)
  : Printed (option Snapshot) :=
  match stock_body W ticker with
  | Ok (lines, data) =>
      match print_lines rejects lines with
      | (out, Ok _) => (out, Ok data)
      | (out, Raise e) =>
          and_then (out, Ok tt)
                   (fun _ => report_error rejects (ErrorFetchingStock ticker e))
      end
  | Raise e => report_error rejects (ErrorFetchingStock ticker e)
  end.

Definition get_crypto_data_on (rejects : Line -> bool) (W : World) (ticker : string)
  : Printed (option Snapshot) :=
  match crypto_body W ticker with
  | Ok data => ([], Ok data)
  | Raise e => report_error rejects (ErrorFetchingCrypto ticker e)
  end.

Definition fetch_on (rejects : Line -> bool) (W : World) (ticker : string)
  : Printed (option Snapshot) :=
  match provider_of ticker with
  | crypto => get_crypto_data_on rejects W ticker
  | stock => get_stock_data_on rejects W ticker
  end.

(** The loop of lines 405-414. *)
Fixpoint fetch_loop_on (rejects : Line -> bool) (W : World) (tickers : list string)
    (data_list : list Snapshot) : Printed (list Snapshot) :=
  match tickers with
  | [] => ([], Ok data_list)
  | ticker :: rest =>
      and_then (fetch_on rejects W ticker) (fun data =>
        match data with
        | Some d => fetch_loop_on rejects W rest (data_list ++ [d])
        | None =>
            and_then (console_print rejects (FailedToFetch ticker))
                     (fun _ => fetch_loop_on rejects W rest data_list)
        end)
  end.

(** [panels[i:i + max_per_row]] for [i] in
    [range(0, len(panels), max_per_row)]. *)
Definition rows_of (panels : list Panel) : list (list Panel) :=
  (fun i => take max_tickers_per_row (drop i panels))
    <$> range_step (length panels) max_tickers_per_row.

(** The loop of lines 428-431. *)
Fixpoint print_rows_on (rejects : Line -> bool) (rows : list (list Panel))
  : Printed unit :=
  match rows with
  | [] => ([], Ok tt)
  | row_panels :: rest =>
      and_then (console_print rejects (PanelRow row_panels)) (fun _ =>
      and_then ([BlankLine], Ok tt) (fun _ => print_rows_on rejects rest))
  end.

Definition display_grid_on (rejects : Line -> bool) (W : World) (tickers : list string)
  : Printed unit :=
  and_then ([ClearScreen], Ok tt) (fun _ =>
  and_then (fetch_loop_on rejects W tickers []) (fun data_list =>
    if empty data_list then ([NoDataAvailable], Ok tt)
    else print_rows_on rejects (rows_of (create_ticker_panel <$> data_list)))).

(* ===================================================================== *)
(** ** Notions the properties are stated with *)
(* ===================================================================== *)

(** The YTD anchor as section 4.1 words it: the earliest point whose
    timestamp falls in the calendar year of [now]; when there is none, the
    earliest point of the whole series. *)
Definition ytd_anchor (now : Z) (series : DataFrame) : option Row :=
  match List.find (fun r => (Calendar.year (date r) =? Calendar.year now)%Z) series with
  | Some r => Some r
  | None => head series
  end.

(** The same anchor on a series of [(timestamp in ms, price)] pairs. *)
Definition ytd_anchor_ms (now : Z) (series : list (Z * float)) : option (Z * float) :=
  match List.find (fun p => (Calendar.year (p.1 * 1000) =? Calendar.year now)%Z) series with
  | Some p => Some p
  | None => head series
  end.

(** Python's [x == 0] on a float. *)
Definition is_zero (x : float) : bool := PrimFloat.eqb x 0%float.

(** A percentage that is neither 0 nor finite: an infinity or a NaN. *)
Definition not_finite (x : float) : Prop :=
  is_finite x = false ∧ is_zero x = false.

(** The common shape of [change_24h], [change_7d] and [change_30d]: a
    period guarded by [len(hist_data) >= g] and anchored at [iloc[-k]]. *)
Definition guarded_change (g k : nat) (hist_data : DataFrame) (current_price : float)
  : result float :=
  if (g <=? length hist_data)%nat then
    let* a := iloc (closes hist_data) (- Z.of_nat k)%Z in
    Ok (pct_change current_price a)
  else Ok 0%float.

(** The points of [l] at the positions [indices], in that order. *)
Definition at_indices {A} (l : list A) (indices : list nat) : list A :=
  omap (fun i => l !! i) indices.


(** What fetching a ticker returns, and whether it failed. *)
Definition outcome (W : World) (ticker : string) : option Snapshot := (fetch W ticker).2.

Definition failing (W : World) (ticker : string) : bool :=
  match outcome W ticker with None => true | Some _ => false end.

(** The symbols reported by "Failed to fetch data for ..." lines, and the
    panels printed, in the order of the output. *)
Definition reported (out : list Line) : list string :=
  omap (fun line => match line with FailedToFetch t => Some t | _ => None end) out.

Definition shown (out : list Line) : list Panel :=
  out ≫= (fun line => match line with PanelRow row_panels => row_panels | _ => [] end).

(** The lines the two fetchers print themselves. *)
Definition fetcher_line (line : Line) : Prop :=
  match line with
  | NoHistoricalData _ | InvalidPriceData _ | ErrorFetchingStock _ _
  | ErrorFetchingCrypto _ _ => True
  | _ => False
  end.

(* ===================================================================== *)
(** ** Sample series and worlds *)
(* ===================================================================== *)

(** [n] prices rising by one from [p]. *)
Fixpoint ramp (p : float) (n : nat) : list float :=
  match n with
  | O => []
  | S n' => p :: ramp (PrimFloat.add p 1%float) n'
  end.

(** Rows at midnight of consecutive days, the first on day [first_day]. *)
Fixpoint daily (first_day : Z) (prices : list float) : DataFrame :=
  match prices with
  | [] => []
  | p :: rest => mkRow (first_day * Calendar.us_per_day) p :: daily (first_day + 1) rest
  end.

(** The same as pairs of the crypto history. *)
Fixpoint daily_ms (first_day : Z) (prices : list float) : list (Z * float) :=
  match prices with
  | [] => []
  | p :: rest => (first_day * Calendar.ms_per_day, p)%Z :: daily_ms (first_day + 1) rest
  end.

(** 2026-11-03, and noon of that day as the reading of the clock. *)
Definition today : Z := Calendar.days_from_civil 2026 11 3.
Definition noon_today : Z := (today * Calendar.us_per_day + 43200000000)%Z.

(** [n] daily rows ending today, closing at 100, 101, ... *)
Definition last_days (n : nat) : DataFrame :=
  daily (today - Z.of_nat n + 1) (ramp 100%float n).

(** Two rows closing at 0 and then at 1. *)
Definition zero_then_one : DataFrame := daily (today - 1) [0%float; 1%float].

(** Four rows across the turn of the year: 2025-12-30 to 2026-01-02. *)
Definition year_turn : DataFrame :=
  daily (Calendar.days_from_civil 2025 12 30) [10%float; 20%float; 40%float; 50%float].

(** A crypto history that ends in the previous year: 2025-12-01 and
    2025-12-02. *)
Definition last_year_prices : list (Z * float) :=
  daily_ms (Calendar.days_from_civil 2025 12 1) [1%float; 3%float].

(** 100 daily prices ending today, 100, 101, ..., 199: the last 90 lie in
    the 90-day window of [noon_today]. *)
Definition hundred_prices : list (Z * float) :=
  daily_ms (today - 99) (ramp 100%float 100).

(** Three points of some 200 days ago, on either path. *)
Definition old_rows : DataFrame := daily (today - 200) [1%float; 2%float; 3%float].
Definition old_prices : list (Z * float) :=
  daily_ms (today - 200) [1%float; 2%float; 3%float].

(** A world in which every request is answered: [stock.info] holds only
    ['currentPrice'], the equity history is [last_days 40] under a tz-aware
    index, the price endpoint quotes the requested coin in usd and the
    crypto history holds yesterday and today at price 1. *)
Definition quiet_world (stock_price crypto_price : float) : World :=
  mkWorld noon_today
    (fun _ => Ok {[ "currentPrice" := Some stock_price ]})
    (fun _ => Ok (last_days 40))
    (fun _ => true)
    (fun coin_id => Ok {[ coin_id := {[ "usd" := crypto_price ]} ]})
    (fun _ => Ok (daily_ms (today - 1) [1%float; 1%float])).

(** A world like [quiet_world 5 7] in which the price endpoint knows the
    coin but quotes no price for it. *)
Definition unquoted_world : World :=
  mkWorld noon_today
    (fun _ => Ok {[ "currentPrice" := Some 5%float ]})
    (fun _ => Ok (last_days 40))
    (fun _ => true)
    (fun coin_id => Ok {[ coin_id := ∅ ]})
    (fun _ => Ok (daily_ms (today - 1) [1%float; 1%float])).

(** A world like [quiet_world 5 7] in which [stock.info] fails for the
    symbol BAD. *)
Definition patchy_world : World :=
  mkWorld noon_today
    (fun t => if String.eqb t "BAD" then Raise RequestException
              else Ok {[ "currentPrice" := Some 5%float ]})
    (fun _ => Ok (last_days 40))
    (fun _ => true)
    (fun coin_id => Ok {[ coin_id := {[ "usd" := 7%float ]} ]})
    (fun _ => Ok (daily_ms (today - 1) [1%float; 1%float])).

(** A world like [quiet_world 5 7] in which yfinance has no history for
    the symbol [/x]. *)
Definition markup_world : World :=
  mkWorld noon_today
    (fun _ => Ok {[ "currentPrice" := Some 5%float ]})
    (fun t => if String.eqb t "[/x]" then Ok [] else Ok (last_days 40))
    (fun _ => true)
    (fun coin_id => Ok {[ coin_id := {[ "usd" := 7%float ]} ]})
    (fun _ => Ok (daily_ms (today - 1) [1%float; 1%float])).

(** A console that renders every line. *)
Definition renders_all (line : Line) : bool := false.

(** A console on which the lines that embed the ticker [/x] raise: in
    "[yellow]No historical data available for [/x][/yellow]" and in
    "[red]Error fetching stock data for [/x]: ...[/red]" the closing tag
    [/x] matches no open tag.  So does a row with a panel that shows the
    upper-cased ticker [/X]. *)
Definition rejects_closing_tag (line : Line) : bool :=
  match line with
  | NoHistoricalData t | InvalidPriceData t | ErrorFetchingStock t _
  | ErrorFetchingCrypto t _ | FailedToFetch t => String.eqb t "[/x]"
  | PanelRow row_panels =>
      existsb (fun panel => String.eqb (ticker (content panel)) "[/X]") row_panels
  | _ => false
  end.

(* ===================================================================== *)
(** ** Configuration, chart and entry point *)
(* ===================================================================== *)

(** A JSON scalar, and a top-level value of a configuration: a dict of
    scalars ([isinstance(value, dict)]) or anything else.  Containers below
    the second level are not represented. *)
Inductive jval : Type :=
| JStr (s : string)
| JNum (n : Z)
| JBool (b : bool)
| JNull.

Inductive entry : Type :=
| Scalar (v : jval)
| Dict (d : gmap string jval).

(** The literal of lines 30-53. *)
Definition default_config : gmap string entry :=
  list_to_map
    [ ("colors", Dict (list_to_map
        [ ("positive", JStr "#00FF00"); ("negative", JStr "#FF0000");
          ("neutral", JStr "#FFFFFF"); ("ticker", JStr "#00FFFF");
          ("price", JStr "#FFFFFF"); ("background", JStr "#000000") ]));
      ("display", Dict (list_to_map
        [ ("max_tickers_per_row", JNum 4); ("max_tickers", JNum 12);
          ("chart_height", JNum 8); ("chart_width", JNum 20) ]));
      ("symbols", Dict (list_to_map [ ("up", JStr "▲"); ("down", JStr "▼") ]));
      ("currency", Dict (list_to_map
        [ ("default", JStr "USD"); ("symbol", JStr "$") ])) ].

(** What is found at [config_path]: no file, a file that cannot be opened
    or parsed, a JSON document that is not an object, or an object, given
    by its items in the order of [user_config.items()]. *)
Inductive ConfigFile : Type :=
| NoFile
| Unreadable
| NotAnObject
| Object (items : list (string * entry)).

Inductive ConfigLine : Type :=
| ErrorLoadingConfig
| UsingDefaultConfiguration.

(** One turn of the loop of lines 60-64; [None] when [.update] is called
    on a value that is not a dict. *)
Definition merge_item (config : gmap string entry) (key : string) (value : entry)
  : option (gmap string entry) :=
  match config !! key, value with
  | Some (Dict d), Dict u => Some (<[key := Dict (u ∪ d)]> config)
  | Some (Scalar _), Dict _ => None
  | _, _ => Some (<[key := value]> config)
  end.

(** The loop: the dict as it stands when the loop ends or raises, and
    whether it ended. *)
Fixpoint merge_items (config : gmap string entry) (items : list (string * entry))
  : gmap string entry * bool :=
  match items with
  | [] => (config, true)
  | (key, value) :: rest =>
      match merge_item config key value with
      | Some config' => merge_items config' rest
      | None => (config, false)
      end
  end.

Definition load_config (file : ConfigFile) : list ConfigLine * gmap string entry :=
  match file with
  | NoFile => ([], default_config)
  | Unreadable | NotAnObject =>
      ([ErrorLoadingConfig; UsingDefaultConfiguration], default_config)
  | Object items =>
      let (config, ended) := merge_items default_config items in
      if ended then ([], config)
      else ([ErrorLoadingConfig; UsingDefaultConfiguration], config)
  end.

(** [config[section][key]]: a missing section or key raises [KeyError],
    a section that is not a dict raises [TypeError]. *)
Definition config_get (config : gmap string entry) (section key : string) : result jval :=
  match config !! section with
  | None => Raise KeyError
  | Some (Scalar _) => Raise TypeError
  | Some (Dict d) => getitem d key
  end.

(** [min(data)] and [max(data)]: the first entry is kept until one
    compares below, or above, it. *)
Definition py_min (data : list float) : option float :=
  match data with
  | [] => None
  | x :: rest => Some (fold_left (fun m y => if PrimFloat.ltb y m then y else m) rest x)
  end.

Definition py_max (data : list float) : option float :=
  match data with
  | [] => None
  | x :: rest => Some (fold_left (fun m y => if PrimFloat.ltb m y then y else m) rest x)
  end.

(** An [int] as a float. *)
Definition float_of_nat (n : nat) : float :=
  PrimFloat.of_uint63 (Uint63.of_Z (Z.of_nat n)).

(** The three shapes of the string [create_ascii_chart] returns: the text
    "No data", [width] times the dash, or lines of blocks ([true]) and
    spaces ([false]) joined by newlines, first line first. *)
Inductive Chart : Type :=
| NoData
| FlatLine (width : nat)
| ChartLines (lines : list (list bool)).

(** The line built in turn [i] of the loop of lines 311-321. *)
Definition chart_line (data : list float) (max_price price_range : float)
    (height i : nat) : list bool :=
  let threshold :=
    PrimFloat.sub max_price
      (PrimFloat.div (PrimFloat.mul price_range (float_of_nat i)) (float_of_nat height)) in
  (fun price => PrimFloat.leb threshold price) <$> data.

Definition create_ascii_chart (data : list float) (width height : nat) : Chart :=
  if empty data || (length data <? 2)%nat then NoData
  else
    match py_min data, py_max data with
    | Some min_price, Some max_price =>
        let price_range := PrimFloat.sub max_price min_price in
        if PrimFloat.eqb price_range 0%float then FlatLine width
        else
          let chart_lines := chart_line data max_price price_range height <$> seq 0 height in
          ChartLines (reverse chart_lines)
    | _, _ => NoData
    end.

(** [config['display']['max_tickers']] of [default_config]. *)
Definition max_tickers : nat := 12.

(** What [run] prints: the refusal of a batch, or the lines of the grid. *)
Inductive RunLine : Type :=
| MaximumTickersAllowed (n : nat)
| GridLine (line : Line).

Definition run (W : World) (tickers : list string) : list RunLine :=
  if (max_tickers <? length tickers)%nat then [MaximumTickersAllowed max_tickers]
  else GridLine <$> display_grid W tickers.

(** A world in which every request is answered, with the given
    [stock.info], equity history (under a tz-aware index), quote of the
    requested coin and crypto history. *)
Definition answering (info : gmap string (option float)) (hist : DataFrame)
    (coin_data : gmap string float) (prices : list (Z * float)) : World :=
  mkWorld noon_today
    (fun _ => Ok info) (fun _ => Ok hist) (fun _ => true)
    (fun coin_id => Ok {[ coin_id := coin_data ]}) (fun _ => Ok prices).

(** What the merge leaves under a key: the user's dict laid over the
    dict already there, else the user's value, else what was there. *)
Definition merged (user before : option entry) : option entry :=
  match user, before with
  | Some (Dict u), Some (Dict d) => Some (Dict (u ∪ d))
  | Some v, _ => Some v
  | None, _ => before
  end.

(* ===================================================================== *)
(** ** The definitions on sample inputs *)
(* ===================================================================== *)

(** The calendar: the first day of each year from 1900 to 2199 lies in
    that year and the day before it in the year before. *)
Example calendar_year_starts :
  forallb (fun y =>
             (Calendar.year_of_days (Calendar.days_from_civil y 1 1) =? y)%Z
             && (Calendar.year_of_days (Calendar.days_from_civil y 1 1 - 1) =? y - 1)%Z)
          (seqZ 1900 300) = true.
Proof. by vm_compute. Qed.

Example calendar_today :
  Calendar.year noon_today = 2026%Z
  ∧ Calendar.weekday noon_today = 1%Z
  ∧ Calendar.year_start_ms 2026 = 1767225600000%Z.
Proof. by vm_compute. Qed.

Example python_indexing :
  iloc [10; 20; 30] (-1) = Ok 30
  ∧ iloc [10; 20; 30] (-3) = Ok 10
  ∧ iloc [10; 20; 30] (-4) = Raise IndexError
  ∧ iloc [10; 20; 30] 3 = Raise IndexError
  ∧ tail 2 [10; 20; 30] = [20; 30]
  ∧ tail 12 [10; 20; 30] = [10; 20; 30]
  ∧ range_step 15 7 = [0; 7; 14]
  ∧ range_step 14 7 = [0; 7].
Proof. by vm_compute. Qed.

(** Section 8: no history at a current price of 50 gives an all-zero dict
    and an empty trend. *)
Example no_history :
  calculate_changes noon_today [] 50%float = Ok (mkChanges 0 0 0 0)
  ∧ get_friday_data true noon_today [] = []
  ∧ get_friday_data false noon_today [] = []
  ∧ get_crypto_friday_data noon_today [] = Ok [].
Proof. by vm_compute. Qed.

(** Section 8: 40 daily points rising from 100 to 139, current price 139. *)
Example forty_days :
  calculate_changes noon_today (last_days 40) 139%float
  = Ok (mkChanges (pct_change 139 138) (pct_change 139 132)
                  (pct_change 139 109) (pct_change 139 100)).
Proof. by vm_compute. Qed.

(* ===================================================================== *)
(** ** Sequences: indexing from the end, tails, strided ranges *)
(* ===================================================================== *)

Section Sequences.
Context {A : Type}.
Implicit Types (l : list A) (k n : nat).

Lemma iloc_from_end l k :
  1 ≤ k → k ≤ length l →
  ∃ x, l !! (length l - k) = Some x ∧ iloc l (- Z.of_nat k) = Ok x.
Proof.
  intros Hk Hl.
  destruct (lookup_lt_is_Some_2 l (length l - k)) as [x Hx]; [lia|].
  exists x. split; [done|].
  unfold iloc.
  replace (- Z.of_nat k <? 0)%Z with true by (symmetry; apply Z.ltb_lt; lia).
  replace ((0 <=? - Z.of_nat k + Z.of_nat (length l))
           && (- Z.of_nat k + Z.of_nat (length l) <? Z.of_nat (length l)))%Z
    with true
    by (symmetry; apply andb_true_intro; split;
        [apply Z.leb_le | apply Z.ltb_lt]; lia).
  replace (Z.to_nat (- Z.of_nat k + Z.of_nat (length l))) with (length l - k) by lia.
  by rewrite Hx.
Qed.

Lemma iloc_from_end_raise l k :
  length l < k → iloc l (- Z.of_nat k) = Raise IndexError.
Proof.
  intros Hl. unfold iloc.
  replace (- Z.of_nat k <? 0)%Z with true by (symmetry; apply Z.ltb_lt; lia).
  replace (0 <=? - Z.of_nat k + Z.of_nat (length l))%Z with false
    by (symmetry; apply Z.leb_gt; lia).
  done.
Qed.

Lemma iloc_nat l i x :
  l !! i = Some x → iloc l (Z.of_nat i) = Ok x.
Proof.
  intros Hx. pose proof (lookup_lt_Some _ _ _ Hx) as Hlt.
  unfold iloc.
  replace (Z.of_nat i <? 0)%Z with false by (symmetry; apply Z.ltb_ge; lia).
  replace ((0 <=? Z.of_nat i) && (Z.of_nat i <? Z.of_nat (length l)))%Z with true
    by (symmetry; apply andb_true_intro; split;
        [apply Z.leb_le | apply Z.ltb_lt]; lia).
  by rewrite Nat2Z.id, Hx.
Qed.

Lemma length_tail n l : length (tail n l) = min n (length l).
Proof. unfold tail. rewrite length_drop. lia. Qed.

Lemma tail_sublist n l : tail n l `sublist_of` l.
Proof. apply sublist_drop. Qed.


Lemma filter_all_false (f : A → bool) l :
  Forall (fun x => f x = false) l → List.filter f l = [].
Proof.
  induction 1 as [|x l Hx _ IH]; simpl; [done|]. by rewrite Hx.
Qed.

Lemma empty_false l : empty l = false ↔ l ≠ [].
Proof. by destruct l. Qed.

End Sequences.

Lemma closes_length (hist_data : DataFrame) : length (closes hist_data) = length hist_data.
Proof. unfold closes. by rewrite length_fmap. Qed.

(* ===================================================================== *)
(** ** Change calculator: the three positional periods *)
(* ===================================================================== *)

Lemma change_24h_guarded : change_24h = guarded_change 2 2.
Proof. reflexivity. Qed.

Lemma change_7d_guarded : change_7d = guarded_change 7 8.
Proof. reflexivity. Qed.

Lemma change_30d_guarded : change_30d = guarded_change 30 31.
Proof. reflexivity. Qed.

Lemma guarded_change_short g k hist_data cur :
  length hist_data < g → guarded_change g k hist_data cur = Ok 0%float.
Proof.
  intros H. unfold guarded_change.
  by replace (g <=? length hist_data)%nat with false by (symmetry; apply Nat.leb_gt; lia).
Qed.

Lemma guarded_change_anchor g k hist_data cur :
  1 ≤ k → g ≤ length hist_data → k ≤ length hist_data →
  ∃ a, closes hist_data !! (length hist_data - k) = Some a
       ∧ guarded_change g k hist_data cur = Ok (pct_change cur a).
Proof.
  intros Hk Hg Hl. unfold guarded_change.
  replace (g <=? length hist_data)%nat with true by (symmetry; apply Nat.leb_le; lia).
  destruct (iloc_from_end (closes hist_data) k) as (a & Ha & Hi);
    [lia | rewrite closes_length; lia |].
  rewrite closes_length in Ha. exists a. split; [done|]. by rewrite Hi.
Qed.

Lemma guarded_change_raise g k hist_data cur :
  g ≤ length hist_data → length hist_data < k →
  guarded_change g k hist_data cur = Raise IndexError.
Proof.
  intros Hg Hl. unfold guarded_change.
  replace (g <=? length hist_data)%nat with true by (symmetry; apply Nat.leb_le; lia).
  rewrite iloc_from_end_raise; [done | rewrite closes_length; lia].
Qed.

(** A guarded period either yields a number or raises [IndexError], the
    latter exactly between the guard and the offset. *)
Lemma guarded_change_cases g k hist_data cur :
  1 ≤ k →
  (∃ c, guarded_change g k hist_data cur = Ok c
        ∧ (length hist_data < g ∨ k ≤ length hist_data))
  ∨ (guarded_change g k hist_data cur = Raise IndexError
     ∧ g ≤ length hist_data < k).
Proof.
  intros Hk.
  destruct (decide (length hist_data < g)) as [Hs|Hg].
  - left. exists 0%float. split; [by apply guarded_change_short | by left].
  - destruct (decide (k ≤ length hist_data)) as [Hl|Hl].
    + left. destruct (guarded_change_anchor g k hist_data cur) as (a & _ & Ha);
        [lia..|]. eexists. split; [exact Ha | by right].
    + right. split; [apply guarded_change_raise; lia | lia].
Qed.

(* ===================================================================== *)
(** ** Change calculator: year to date *)
(* ===================================================================== *)

Lemma head_filter_find {A} (f : A → bool) (l : list A) :
  head (List.filter f l) = List.find f l.
Proof.
  induction l as [|x l IH]; simpl; [done|]. by destruct (f x).
Qed.

Lemma iloc_first {A} (x : A) (l : list A) : iloc (x :: l) 0 = Ok x.
Proof. by apply (iloc_nat (x :: l) 0). Qed.

(** The equity YTD step never raises, and its anchor is [ytd_anchor]. *)
Lemma change_ytd_anchor now hist_data cur :
  change_ytd now hist_data cur =
  Ok (from_option (fun r => pct_change cur (Close r)) 0%float (ytd_anchor now hist_data)).
Proof.
  unfold change_ytd, ytd_anchor.
  rewrite <- head_filter_find. fold (ytd_rows now hist_data).
  destruct (ytd_rows now hist_data) as [|r rest].
  - destruct hist_data as [|r0 rest0]; [done|].
    change (closes (r0 :: rest0)) with (Close r0 :: closes rest0).
    cbn [empty negb head from_option]. by rewrite iloc_first.
  - change (closes (r :: rest)) with (Close r :: closes rest).
    cbn [empty negb head from_option]. by rewrite iloc_first.
Qed.

(* ===================================================================== *)
(** ** Change calculator: the whole dict *)
(* ===================================================================== *)

Lemma calculate_changes_empty now cur :
  calculate_changes now [] cur = Ok (mkChanges 0 0 0 0).
Proof. reflexivity. Qed.

(** A returned dict holds what the four steps computed. *)
Lemma calculate_changes_steps now hist_data cur cs :
  hist_data ≠ [] →
  calculate_changes now hist_data cur = Ok cs →
  change_24h hist_data cur = Ok (h24 cs)
  ∧ change_7d hist_data cur = Ok (d7 cs)
  ∧ change_30d hist_data cur = Ok (d30 cs)
  ∧ change_ytd now hist_data cur = Ok (ytd cs).
Proof.
  intros Hne. unfold calculate_changes.
  apply empty_false in Hne. rewrite Hne.
  destruct (change_24h hist_data cur) as [c24|]; simpl; [|done].
  destruct (change_7d hist_data cur) as [c7|]; simpl; [|done].
  destruct (change_30d hist_data cur) as [c30|]; simpl; [|done].
  destruct (change_ytd now hist_data cur) as [cy|]; simpl; [|done].
  by intros [= <-].
Qed.

(** What a guarded period contributes to a returned dict. *)
Lemma guarded_change_returned g k hist_data cur c :
  1 ≤ k → g ≤ k →
  guarded_change g k hist_data cur = Ok c →
  (length hist_data < g → c = 0%float)
  ∧ (g ≤ length hist_data →
     k ≤ length hist_data
     ∧ ∃ a, closes hist_data !! (length hist_data - k) = Some a
            ∧ c = pct_change cur a).
Proof.
  intros Hk Hgk Hc. split.
  - intros Hs. rewrite guarded_change_short in Hc by done. by injection Hc.
  - intros Hg.
    destruct (decide (k ≤ length hist_data)) as [Hl|Hl].
    + split; [done|].
      destruct (guarded_change_anchor g k hist_data cur) as (a & Ha & Hr); [done..|].
      exists a. split; [done|]. rewrite Hr in Hc. by injection Hc.
    + rewrite guarded_change_raise in Hc by lia. done.
Qed.

(** The entries of a returned dict, period by period. *)
Lemma calculate_changes_entries now hist_data cur cs :
  calculate_changes now hist_data cur = Ok cs →
  let n := length hist_data in
  ((n < 2 → h24 cs = 0%float)
   ∧ (2 ≤ n →
      ∃ a, closes hist_data !! (n - 2) = Some a ∧ h24 cs = pct_change cur a))
  ∧ ((n < 7 → d7 cs = 0%float)
     ∧ (7 ≤ n →
        8 ≤ n ∧ ∃ a, closes hist_data !! (n - 8) = Some a
                     ∧ d7 cs = pct_change cur a))
  ∧ ((n < 30 → d30 cs = 0%float)
     ∧ (30 ≤ n →
        31 ≤ n ∧ ∃ a, closes hist_data !! (n - 31) = Some a
                      ∧ d30 cs = pct_change cur a))
  ∧ ((n = 0 → ytd cs = 0%float)
     ∧ (∀ r, ytd_anchor now hist_data = Some r →
             ytd cs = pct_change cur (Close r))).
Proof.
  intros Hcs n.
  destruct (decide (hist_data = [])) as [Hnil|Hne].
  - subst hist_data n. injection Hcs as <-. simpl.
    split_and!; try done; intros; lia.
  - destruct (calculate_changes_steps _ _ _ _ Hne Hcs) as (H24 & H7 & H30 & Hy).
    rewrite change_24h_guarded in H24.
    rewrite change_7d_guarded in H7.
    rewrite change_30d_guarded in H30.
    apply guarded_change_returned in H24 as [H24a H24b]; [|lia..].
    apply guarded_change_returned in H7 as [H7a H7b]; [|lia..].
    apply guarded_change_returned in H30 as [H30a H30b]; [|lia..].
    rewrite change_ytd_anchor in Hy. injection Hy as Hy.
    subst n. split_and!.
    + exact H24a.
    + intros Hn. by destruct (H24b Hn) as [_ ?].
    + exact H7a.
    + exact H7b.
    + exact H30a.
    + exact H30b.
    + intros Hn. by destruct hist_data.
    + intros r Hr. rewrite Hr in Hy. by simpl in Hy.
Qed.

(* ===================================================================== *)
(** ** Change calculator: when it returns *)
(* ===================================================================== *)

(** [calculate_changes] either returns a dict or raises [IndexError]; it
    raises exactly on frames of 7 and of 30 rows, where the guard of a
    period holds and its offset lies one row before the frame. *)
Lemma calculate_changes_outcome now hist_data cur :
  (∃ cs, calculate_changes now hist_data cur = Ok cs
         ∧ length hist_data ≠ 7 ∧ length hist_data ≠ 30)
  ∨ (calculate_changes now hist_data cur = Raise IndexError
     ∧ (length hist_data = 7 ∨ length hist_data = 30)).
Proof.
  destruct (decide (hist_data = [])) as [->|Hne].
  { left. eexists. split; [reflexivity|]. simpl. lia. }
  unfold calculate_changes.
  apply empty_false in Hne. rewrite Hne.
  rewrite change_24h_guarded, change_7d_guarded, change_30d_guarded.
  destruct (guarded_change_cases 2 2 hist_data cur) as [(c24 & -> & _)|[_ ?]];
    [lia | | lia].
  destruct (guarded_change_cases 7 8 hist_data cur) as [(c7 & -> & H7)|[-> H7]];
    [lia | | right; split; [done | lia]].
  destruct (guarded_change_cases 30 31 hist_data cur) as [(c30 & -> & H30)|[-> H30]];
    [lia | | right; split; [done | lia]].
  rewrite change_ytd_anchor. left. eexists. split; [reflexivity | lia].
Qed.

(** C1. The percentages of [calculate_changes], with the formula written
    out in binary64 operations.  For every series of a length other than 7
    and 30 the function returns a dict in which each period is 0 below its
    length guard and otherwise [(current_price - a) / a * 100] for the close
    [a] at its documented index: [len - 2], [len - 8], [len - 31], and for
    YTD the earliest row of the current year, or the first row when the
    year has none.  For a series of exactly 7 or exactly 30 rows, which has
    at least 2 points, the function raises [IndexError] and returns no 24h
    change, nor any other.  The scenario of section 8 (40 daily closes from
    100 to 139, current price 139) gives 0.72463768115942029,
    5.3030303030303028, 27.522935779816514 and 39. *)
Theorem calculate_changes_anchors (now : Z) (current_price : float) :
  (∀ hist_data,
     let n := length hist_data in
     n ≠ 7 → n ≠ 30 →
     ∃ cs, calculate_changes now hist_data current_price = Ok cs
       ∧ ((n < 2 → h24 cs = 0%float)
          ∧ (2 ≤ n →
             ∃ a, closes hist_data !! (n - 2) = Some a
                  ∧ h24 cs = ((current_price - a) / a * 100)%float))
       ∧ ((n < 7 → d7 cs = 0%float)
          ∧ (7 ≤ n →
             ∃ a, closes hist_data !! (n - 8) = Some a
                  ∧ d7 cs = ((current_price - a) / a * 100)%float))
       ∧ ((n < 30 → d30 cs = 0%float)
          ∧ (30 ≤ n →
             ∃ a, closes hist_data !! (n - 31) = Some a
                  ∧ d30 cs = ((current_price - a) / a * 100)%float))
       ∧ ((n = 0 → ytd cs = 0%float)
          ∧ (∀ r, ytd_anchor now hist_data = Some r →
                  ytd cs = ((current_price - Close r) / Close r * 100)%float)))
  ∧ (∀ hist_data,
       length hist_data = 7 ∨ length hist_data = 30 →
       2 ≤ length hist_data
       ∧ calculate_changes now hist_data current_price = Raise IndexError)
  ∧ (length (last_days 7) = 7
     ∧ calculate_changes now (last_days 7) current_price = Raise IndexError)
  ∧ calculate_changes noon_today (last_days 40) 139%float
    = Ok (mkChanges 0x1.7303b5cc0ed73p-1%float 0x1.5364d9364d936p+2%float
                    0x1.b85df1e88385ep+4%float 39%float).
Proof.
  assert (∀ hist_data,
            length hist_data = 7 ∨ length hist_data = 30 →
            calculate_changes now hist_data current_price = Raise IndexError) as Hraise.
  { intros hist_data Hl.
    destruct (calculate_changes_outcome now hist_data current_price)
      as [(cs & _ & H7 & H30)|[Hr _]]; [lia | done]. }
  split_and!.
  - intros hist_data n H7 H30.
    destruct (calculate_changes_outcome now hist_data current_price)
      as [(cs & Hcs & _)|[_ Hl]]; [|subst n; lia].
    exists cs. split; [done|].
    destruct (calculate_changes_entries _ _ _ _ Hcs)
      as ((H24a & H24b) & (H7a & H7b) & (H30a & H30b) & Hya & Hyb).
    fold n in H24a, H24b, H7a, H7b, H30a, H30b, Hya.
    split_and!.
    + exact H24a.
    + exact H24b.
    + exact H7a.
    + intros Hn. by destruct (H7b Hn) as [_ ?].
    + exact H30a.
    + intros Hn. by destruct (H30b Hn) as [_ ?].
    + exact Hya.
    + exact Hyb.
  - intros hist_data Hl. split; [lia | by apply Hraise].
  - reflexivity.
  - apply Hraise. by left.
  - vm_compute. reflexivity.
Qed.

(* ===================================================================== *)
(** ** Change calculator: when it raises *)
(* ===================================================================== *)

(** C2. [calculate_changes] does not return for every series: on a frame
    of exactly 7 rows the 7d guard [len >= 7] holds and [iloc[-8]] raises
    [IndexError]; on a frame of exactly 30 rows the 30d guard [len >= 30]
    holds and [iloc[-31]] raises [IndexError].  At every other length it
    returns a complete dict. *)
Theorem calculate_changes_index_error (now : Z) (current_price : float) :
  calculate_changes now (last_days 7) current_price = Raise IndexError
  ∧ calculate_changes now (last_days 30) current_price = Raise IndexError
  ∧ ∀ hist_data,
      (calculate_changes now hist_data current_price = Raise IndexError
       ∧ (length hist_data = 7 ∨ length hist_data = 30))
      ∨ (∃ cs, calculate_changes now hist_data current_price = Ok cs
               ∧ length hist_data ≠ 7 ∧ length hist_data ≠ 30).
Proof.
  assert (∀ hist_data,
      (calculate_changes now hist_data current_price = Raise IndexError
       ∧ (length hist_data = 7 ∨ length hist_data = 30))
      ∨ (∃ cs, calculate_changes now hist_data current_price = Ok cs
               ∧ length hist_data ≠ 7 ∧ length hist_data ≠ 30)) as Hcases.
  { intros hist_data.
    destruct (calculate_changes_outcome now hist_data current_price) as [H|H];
      [by right | by left]. }
  split_and!; [| | exact Hcases].
  - destruct (Hcases (last_days 7)) as [[Hr _]|(cs & _ & H7 & _)]; [done|].
    by contradict H7.
  - destruct (Hcases (last_days 30)) as [[Hr _]|(cs & _ & _ & H30)]; [done|].
    by contradict H30.
Qed.

(* ===================================================================== *)
(** ** Binary64 arithmetic on a zero anchor *)
(* ===================================================================== *)

Lemma is_zero_spec a : is_zero a = true → ∃ s, Prim2SF a = S754_zero s.
Proof.
  unfold is_zero. rewrite FloatAxioms.eqb_spec.
  change (Prim2SF 0%float) with (S754_zero false).
  destruct (Prim2SF a) as [s|s| |s m e]; simpl; eauto; try discriminate;
    by destruct s.
Qed.

Lemma not_finite_spec x :
  (Prim2SF x = S754_nan ∨ ∃ s, Prim2SF x = S754_infinity s) → not_finite x.
Proof.
  unfold not_finite, is_zero, is_finite, is_nan, is_infinity.
  rewrite !FloatAxioms.eqb_spec, abs_spec.
  change (Prim2SF infinity) with (S754_infinity false).
  change (Prim2SF 0%float) with (S754_zero false).
  intros [->|[s ->]]; simpl; [done|]. by destruct s.
Qed.

Lemma div_zero_spec x a s :
  Prim2SF a = S754_zero s →
  Prim2SF (PrimFloat.div x a) = S754_nan
  ∨ ∃ s', Prim2SF (PrimFloat.div x a) = S754_infinity s'.
Proof.
  intros Ha. rewrite div_spec, Ha. unfold SF64div, SFdiv.
  destruct (Prim2SF x); eauto.
Qed.

Lemma mul_hundred_spec q :
  (Prim2SF q = S754_nan ∨ ∃ s, Prim2SF q = S754_infinity s) →
  Prim2SF (PrimFloat.mul q 100%float) = S754_nan
  ∨ ∃ s, Prim2SF (PrimFloat.mul q 100%float) = S754_infinity s.
Proof.
  assert (∃ m e, Prim2SF 100%float = S754_finite false m e) as (m & e & H100)
    by (vm_compute; eauto).
  rewrite mul_spec, H100. unfold SF64mul, SFmul.
  intros [->|[s ->]]; eauto.
Qed.

(** Whatever the current price, the percentage over a zero anchor is an
    infinity or a NaN. *)
Lemma pct_change_zero_anchor cur a :
  is_zero a = true → not_finite (pct_change cur a).
Proof.
  intros [s Hs]%is_zero_spec. unfold pct_change.
  apply not_finite_spec, mul_hundred_spec. by eapply div_zero_spec.
Qed.

Lemma py_pct_change_zero_anchor cur a :
  is_zero a = true → py_pct_change cur a = Raise ZeroDivisionError.
Proof. unfold py_pct_change, is_zero. by intros ->. Qed.

(** C3 (as the code has it). No period tests its anchor against zero.  In
    a dict [calculate_changes] returns, a period below its length guard is
    0; a period whose anchor close equals 0 is not 0 and not finite: it is
    the binary64 quotient by zero, an infinity or a NaN, and no
    division-by-zero error is raised.  On plain Python numbers
    [calculate_ytd_change] raises [ZeroDivisionError] when its anchor
    price equals 0. *)
Theorem zero_anchor_changes (now : Z) (current_price : float) :
  (∀ hist_data cs,
     calculate_changes now hist_data current_price = Ok cs →
     let n := length hist_data in
     ((n < 2 → h24 cs = 0%float) ∧ (n < 7 → d7 cs = 0%float)
      ∧ (n < 30 → d30 cs = 0%float) ∧ (n = 0 → ytd cs = 0%float))
     ∧ (∀ a, 2 ≤ n → closes hist_data !! (n - 2) = Some a →
             is_zero a = true → not_finite (h24 cs))
     ∧ (∀ a, 7 ≤ n → closes hist_data !! (n - 8) = Some a →
             is_zero a = true → not_finite (d7 cs))
     ∧ (∀ a, 30 ≤ n → closes hist_data !! (n - 31) = Some a →
             is_zero a = true → not_finite (d30 cs))
     ∧ (∀ r, ytd_anchor now hist_data = Some r →
             is_zero (Close r) = true → not_finite (ytd cs)))
  ∧ (∀ price_data p,
       first_price_from (Calendar.year_start_ms (Calendar.year now)) price_data = Some p →
       is_zero p = true →
       calculate_ytd_change now price_data current_price = Raise ZeroDivisionError).
Proof.
  split.
  - intros hist_data cs Hcs n.
    destruct (calculate_changes_entries now hist_data current_price cs Hcs)
      as ((Z24 & A24) & (Z7 & A7) & (Z30 & A30) & (Zy & Ay)).
    fold n in Z24, A24, Z7, A7, Z30, A30, Zy.
    split_and!; try done.
    + intros a Hn Ha Hz. destruct (A24 Hn) as (a' & Ha' & ->).
      rewrite Ha in Ha'. injection Ha' as <-. by apply pct_change_zero_anchor.
    + intros a Hn Ha Hz. destruct (A7 Hn) as (_ & a' & Ha' & ->).
      rewrite Ha in Ha'. injection Ha' as <-. by apply pct_change_zero_anchor.
    + intros a Hn Ha Hz. destruct (A30 Hn) as (_ & a' & Ha' & ->).
      rewrite Ha in Ha'. injection Ha' as <-. by apply pct_change_zero_anchor.
    + intros r Hr Hz. rewrite (Ay r Hr). by apply pct_change_zero_anchor.
  - intros price_data p Hp Hz. unfold calculate_ytd_change.
    destruct price_data as [|q rest]; [done|].
    cbn [empty]. rewrite Hp. by apply py_pct_change_zero_anchor.
Qed.

Lemma zero_anchor_changes_witness :
  ∃ cs, calculate_changes noon_today zero_then_one 1%float = Ok cs
        ∧ not_finite (h24 cs).
Proof.
  destruct (zero_anchor_changes noon_today 1%float) as [H _].
  destruct (calculate_changes noon_today zero_then_one 1%float) as [cs|e] eqn:E;
    [|vm_compute in E; discriminate E].
  exists cs. split; [reflexivity|].
  destruct (H zero_then_one cs E) as (_ & H24 & _).
  apply (H24 0%float); [vm_compute; lia | reflexivity | reflexivity].
Defined.

(** C3 fails as stated: the 24h anchor of [zero_then_one] is 0 and the
    24h change at a current price of 1 is [+infinity], neither 0 nor
    finite. *)
Lemma zero_anchor_counterexample :
  closes zero_then_one !! (length zero_then_one - 2) = Some 0%float
  ∧ ∃ cs, calculate_changes noon_today zero_then_one 1%float = Ok cs
          ∧ h24 cs = infinity
          ∧ is_zero (h24 cs) = false
          ∧ is_finite (h24 cs) = false.
Proof.
  split; [reflexivity|].
  eexists. split; [vm_compute; reflexivity|]. by vm_compute.
Qed.

(* ===================================================================== *)
(** ** Year to date on the two paths *)
(* ===================================================================== *)

Lemma ytd_anchor_none now hist_data :
  ytd_anchor now hist_data = None ↔ hist_data = [].
Proof.
  unfold ytd_anchor. split; [|by intros ->].
  destruct (List.find _ hist_data); [done|]. by destruct hist_data.
Qed.

(** The loop of [calculate_ytd_change] stops at the first pair at or after
    the start of the year. *)
Lemma first_price_from_find year_start price_data :
  first_price_from year_start price_data
  = snd <$> List.find (fun p => (year_start <=? p.1)%Z) price_data.
Proof.
  induction price_data as [|[ts price] rest IH]; simpl; [done|].
  by destruct (year_start <=? ts)%Z.
Qed.

Lemma calculate_ytd_change_find now price_data cur :
  calculate_ytd_change now price_data cur =
  match List.find (fun p => (Calendar.year_start_ms (Calendar.year now) <=? p.1)%Z)
                  price_data with
  | Some p => py_pct_change cur p.2
  | None => Ok 0%float
  end.
Proof.
  unfold calculate_ytd_change. rewrite first_price_from_find.
  destruct price_data as [|q rest]; [done|]. cbn [empty].
  by destruct (List.find _ (q :: rest)).
Qed.

(** C4 (as the code has it). On the equity path the YTD entry of a
    returned dict is computed from [ytd_anchor]: the earliest row whose
    date falls in the calendar year of [now], the first row of the series
    when no row falls in it, and the entry is 0 when the series is empty.
    On the crypto path the anchor is the earliest pair whose timestamp is
    at or after the start of the calendar year of [now]; when there is no
    such pair, and so when the series is empty, the YTD change is 0: the
    crypto path does not fall back to the first pair. *)
Theorem ytd_anchor_by_path (now : Z) (current_price : float) :
  (∀ hist_data cs,
     calculate_changes now hist_data current_price = Ok cs →
     ytd cs = match ytd_anchor now hist_data with
              | Some r => pct_change current_price (Close r)
              | None => 0%float
              end)
  ∧ (∀ hist_data, ytd_anchor now hist_data = None ↔ hist_data = [])
  ∧ (∀ price_data,
       calculate_ytd_change now price_data current_price =
       match List.find
               (fun p => (Calendar.year_start_ms (Calendar.year now) <=? p.1)%Z)
               price_data with
       | Some p => py_pct_change current_price p.2
       | None => Ok 0%float
       end)
  ∧ calculate_ytd_change now [] current_price = Ok 0%float.
Proof.
  split_and!.
  - intros hist_data cs Hcs.
    destruct (calculate_changes_entries _ _ _ _ Hcs) as (_ & _ & _ & Hz & Hy).
    destruct (ytd_anchor now hist_data) as [r|] eqn:Hr.
    + by apply Hy.
    + apply ytd_anchor_none in Hr. subst hist_data. by apply Hz.
  - intros hist_data. apply ytd_anchor_none.
  - intros price_data. apply calculate_ytd_change_find.
  - reflexivity.
Qed.

Lemma ytd_anchor_by_path_witness :
  ∃ cs, calculate_changes noon_today year_turn 50%float = Ok cs
        ∧ ytd cs = pct_change 50%float 40%float.
Proof.
  destruct (ytd_anchor_by_path noon_today 50%float) as [H _].
  destruct (calculate_changes noon_today year_turn 50%float) as [cs|e] eqn:E;
    [|vm_compute in E; discriminate E].
  exists cs. split; [reflexivity|]. by rewrite (H year_turn cs E).
Defined.

(** C4 fails as stated on the crypto path: no pair of [last_year_prices]
    falls in the current year, the documented anchor is its first pair, at
    price 1, which for a current price of 2 gives 100 percent; the code
    returns 0. *)
Lemma crypto_ytd_counterexample :
  List.find (fun p => (Calendar.year (p.1 * 1000) =? Calendar.year noon_today)%Z)
            last_year_prices = None
  ∧ snd <$> ytd_anchor_ms noon_today last_year_prices = Some 1%float
  ∧ pct_change 2%float 1%float = 100%float
  ∧ calculate_ytd_change noon_today last_year_prices 2%float = Ok 0%float
  ∧ PrimFloat.eqb 0%float 100%float = false.
Proof. by vm_compute. Qed.

(* ===================================================================== *)
(** ** Price validation in the two fetchers *)
(* ===================================================================== *)

(** Whatever [stock.info] and the history hold, a resolved price at or
    below zero makes [get_stock_data] report the symbol and return [None]. *)
Lemma get_stock_data_rejects W ticker info hist price :
  yf_info W ticker = Ok info →
  yf_history W ticker = Ok hist →
  hist ≠ [] →
  resolve_current_price info hist = Ok (Some price) →
  PrimFloat.leb price 0%float = true →
  get_stock_data W ticker = ([InvalidPriceData ticker], None).
Proof.
  intros Hi Hh Hne Hp Hle. unfold get_stock_data, stock_body.
  rewrite Hi, Hh. cbn [bind]. apply empty_false in Hne. rewrite Hne.
  rewrite Hp. cbn [bind]. by rewrite Hle.
Qed.

(** Every snapshot [get_stock_data] returns carries a price that is not at
    or below zero. *)
Lemma get_stock_data_price W ticker printed d :
  get_stock_data W ticker = (printed, Some d) →
  PrimFloat.leb (current_price d) 0%float = false ∧ type d = stock.
Proof.
  unfold get_stock_data, stock_body.
  destruct (yf_info W ticker) as [info|]; cbn [bind]; [|done].
  destruct (yf_history W ticker) as [hist|]; cbn [bind]; [|done].
  destruct (empty hist); [done|].
  destruct (resolve_current_price info hist) as [[price|]|]; cbn [bind]; [|done..].
  destruct (PrimFloat.leb price 0%float) eqn:Hle; [done|].
  destruct (calculate_changes (clock W) hist price); cbn [bind]; [|done].
  by intros [= _ <-].
Qed.

(** C5. The two fetchers validate differently.  [get_stock_data] rejects
    a price of 0 with "Invalid price data".  [get_crypto_data] rejects a
    quote without a price, the [KeyError] being caught and reported, but
    has no check of the price itself: quoted at 0, or at -5, BTC yields a
    snapshot carrying that price and nothing is reported. *)
Theorem crypto_accepts_non_positive_price :
  provider_of "BTC" = crypto
  ∧ get_stock_data (quiet_world 0 0) "AAPL" = ([InvalidPriceData "AAPL"], None)
  ∧ get_crypto_data unquoted_world "BTC" = ([ErrorFetchingCrypto "BTC" KeyError], None)
  ∧ (∃ d, get_crypto_data (quiet_world 0 0) "BTC" = ([], Some d)
          ∧ current_price d = 0%float)
  ∧ (∃ d, get_crypto_data (quiet_world 0 (-5)) "BTC" = ([], Some d)
          ∧ current_price d = (-5)%float).
Proof.
  split_and!.
  - reflexivity.
  - by vm_compute.
  - by vm_compute.
  - eexists. split; [vm_compute; reflexivity | reflexivity].
  - eexists. split; [vm_compute; reflexivity | reflexivity].
Qed.

(* ===================================================================== *)
(** ** Series sampler *)
(* ===================================================================== *)

Section Strided.
Context {A : Type}.
Implicit Types (l : list A) (indices : list nat).

Lemma length_range_step stop step :
  length (range_step stop step) = (stop + step - 1) / step.
Proof. unfold range_step. by rewrite length_fmap, length_seq. Qed.

Lemma range_step_lookup stop step k :
  k < (stop + step - 1) / step → range_step stop step !! k = Some (k * step).
Proof.
  intros Hk. unfold range_step.
  by rewrite list_lookup_fmap, lookup_seq_lt.
Qed.

Lemma range_step_bound stop step :
  1 ≤ step → Forall (fun i => i < stop) (range_step stop step).
Proof.
  intros Hs. unfold range_step. apply Forall_fmap, Forall_seq.
  intros k [_ Hk]. simpl in *.
  pose proof (Nat.Div0.mul_div_le (stop + step - 1) step) as Hd.
  nia.
Qed.

Lemma at_indices_cons l i indices x :
  l !! i = Some x → at_indices l (i :: indices) = x :: at_indices l indices.
Proof. intros H. unfold at_indices. simpl. by rewrite H. Qed.

Lemma length_at_indices l indices :
  Forall (fun i => i < length l) indices →
  length (at_indices l indices) = length indices.
Proof.
  induction 1 as [|i indices Hi _ IH]; [done|].
  destruct (lookup_lt_is_Some_2 l i Hi) as [x Hx].
  rewrite (at_indices_cons _ _ _ _ Hx). simpl. by rewrite IH.
Qed.

Lemma at_indices_lookup l indices k i :
  Forall (fun i => i < length l) indices →
  indices !! k = Some i → at_indices l indices !! k = l !! i.
Proof.
  intros H. revert k. induction H as [|j indices Hj _ IH]; intros k Hk; [done|].
  destruct (lookup_lt_is_Some_2 l j Hj) as [x Hx].
  rewrite (at_indices_cons _ _ _ _ Hx).
  destruct k as [|k]; simpl in *.
  - injection Hk as ->. done.
  - by apply IH.
Qed.


End Strided.

Lemma sample_loop_take recent_data indices friday_data :
  Forall (fun i => i < length recent_data) indices →
  sample_loop recent_data indices friday_data
  = Ok (friday_data
        ++ take (12 - length friday_data) (snd <$> at_indices recent_data indices)).
Proof.
  intros H. revert friday_data.
  induction H as [|i indices Hi _ IH]; intros friday_data.
  - simpl. by rewrite take_nil, app_nil_r.
  - destruct (lookup_lt_is_Some_2 recent_data i Hi) as [p Hp].
    rewrite (at_indices_cons _ _ _ _ Hp). cbn [sample_loop].
    destruct (length friday_data <? 12) eqn:Hlt.
    + apply Nat.ltb_lt in Hlt.
      rewrite (iloc_nat _ _ _ Hp). cbn [bind]. rewrite IH.
      rewrite length_app. simpl.
      replace (12 - length friday_data) with (S (12 - (length friday_data + 1))) by lia.
      simpl. by rewrite <- app_assoc.
    + apply Nat.ltb_ge in Hlt. rewrite IH.
      by replace (12 - length friday_data) with 0 by lia.
Qed.

Lemma get_crypto_friday_data_take now price_data :
  get_crypto_friday_data now price_data =
  Ok (snd <$> take 12 (at_indices (recent_prices now price_data)
                         (range_step (length (recent_prices now price_data)) 7))).
Proof.
  unfold get_crypto_friday_data.
  destruct price_data as [|p rest]; [done|]. cbn [empty].
  rewrite sample_loop_take by (apply range_step_bound; lia).
  simpl. by rewrite fmap_take.
Qed.

Lemma closes_tail n (rows : DataFrame) : tail n (closes rows) = closes (tail n rows).
Proof. unfold tail, closes. by rewrite fmap_drop, length_fmap. Qed.


(** The rows [get_friday_data] reads its result from: on a naive index
    the Friday rows of the window, or the window when it holds no Friday;
    on a tz-aware index, through the handler, the whole frame. *)
Lemma get_friday_data_rows now hist_data :
  get_friday_data false now hist_data =
  closes (tail 12 (if empty (friday_rows (recent_rows now hist_data))
                   then recent_rows now hist_data
                   else friday_rows (recent_rows now hist_data))).
Proof.
  unfold get_friday_data, friday_window, index_ge.
  destruct hist_data as [|r rest]; [done|]. cbn [empty bind].
  destruct (empty (friday_rows (recent_rows now (r :: rest)))); simpl;
    by rewrite closes_tail.
Qed.

Lemma get_friday_data_aware now hist_data :
  get_friday_data true now hist_data = tail 12 (closes hist_data).
Proof. by destruct hist_data. Qed.

Lemma get_friday_data_bounded tz_aware now hist_data :
  length (get_friday_data tz_aware now hist_data) ≤ 12.
Proof.
  destruct tz_aware.
  - rewrite get_friday_data_aware, length_tail. lia.
  - rewrite get_friday_data_rows, closes_length, length_tail. lia.
Qed.






(** C7 (as the code has it).  When every point of the series is older
    than 90 days before [now], the 90-day window is empty.  The crypto
    path then returns the empty list, and so does the equity path on a
    naive index: neither falls back to the unfiltered series.  On a
    tz-aware index the equity path never gets to the window: the handler
    returns the last 12 closes of the unfiltered series. *)
Theorem empty_window_sample (now : Z) :
  (∀ hist_data,
     Forall (fun r => (date r < three_months_ago now)%Z) hist_data →
     recent_rows now hist_data = []
     ∧ get_friday_data false now hist_data = []
     ∧ get_friday_data true now hist_data = tail 12 (closes hist_data))
  ∧ (∀ price_data,
       Forall (fun p => (p.1 * 1000 < three_months_ago now)%Z) price_data →
       recent_prices now price_data = []
       ∧ get_crypto_friday_data now price_data = Ok []).
Proof.
  split.
  - intros hist_data Hold.
    assert (recent_rows now hist_data = []) as Hr.
    { apply filter_all_false. eapply Forall_impl; [exact Hold|].
      intros r Hlt. simpl in *. apply Z.leb_gt. lia. }
    split_and!; [done | | apply get_friday_data_aware].
    rewrite get_friday_data_rows, Hr. reflexivity.
  - intros price_data Hold.
    assert (recent_prices now price_data = []) as Hr.
    { apply filter_all_false. eapply Forall_impl; [exact Hold|].
      intros p Hlt. simpl in *. apply Z.leb_gt. lia. }
    split; [done|]. rewrite get_crypto_friday_data_take, Hr. reflexivity.
Qed.

Lemma empty_window_sample_witness :
  get_friday_data false noon_today old_rows = []
  ∧ get_friday_data true noon_today old_rows = [1%float; 2%float; 3%float]
  ∧ get_crypto_friday_data noon_today old_prices = Ok [].
Proof.
  destruct (empty_window_sample noon_today) as [He Hc].
  destruct (He old_rows) as (_ & Hn & Ha); [repeat constructor|].
  split_and!; [exact Hn | by rewrite Ha |].
  apply (Hc old_prices). repeat constructor.
Defined.

(** C7 fails as stated on the crypto path: the three points of
    [old_prices] are older than 90 days, the last 12 points of the
    unfiltered series are the prices 1, 2, 3, and the sampler returns the
    empty list. *)
Lemma empty_window_counterexample :
  length old_prices = 3
  ∧ forallb (fun p => (p.1 * 1000 <? three_months_ago noon_today)%Z) old_prices = true
  ∧ tail 12 (snd <$> old_prices) = [1%float; 2%float; 3%float]
  ∧ get_crypto_friday_data noon_today old_prices = Ok [].
Proof. by vm_compute. Qed.

(** C8. On the crypto path the sample is every 7th point of the 90-day
    window, in the order of the window, cut at 12 samples: entry [k] of the
    result is the price at position [7 * k] of the window, and there are
    [min 12 (ceil (len / 7))] entries.  For a window of exactly 90 points
    these are the 12 prices at positions 0, 7, 14, ..., 77. *)
Theorem crypto_every_seventh (now : Z) (price_data : list (Z * float)) :
  let recent_data := recent_prices now price_data in
  ∃ out, get_crypto_friday_data now price_data = Ok out
    ∧ length out = min 12 ((length recent_data + 6) / 7)
    ∧ (∀ k, k < length out → out !! k = snd <$> recent_data !! (7 * k))
    ∧ (length recent_data = 90 →
       Some <$> out = (fun i => snd <$> recent_data !! i)
                        <$> [0; 7; 14; 21; 28; 35; 42; 49; 56; 63; 70; 77]).
Proof.
  intros recent_data. rewrite get_crypto_friday_data_take. fold recent_data.
  set (indices := range_step (length recent_data) 7).
  assert (Forall (fun i => i < length recent_data) indices) as Hb
    by (apply range_step_bound; lia).
  assert (length indices = (length recent_data + 6) / 7) as Hli.
  { subst indices. rewrite length_range_step. f_equal. lia. }
  eexists. split; [reflexivity|].
  assert (length (snd <$> take 12 (at_indices recent_data indices))
          = min 12 ((length recent_data + 6) / 7)) as Hlen.
  { by rewrite length_fmap, length_take, length_at_indices, Hli. }
  assert (∀ k, k < length (snd <$> take 12 (at_indices recent_data indices)) →
            (snd <$> take 12 (at_indices recent_data indices)) !! k
            = snd <$> recent_data !! (7 * k)) as Hk.
  { intros k Hlt. rewrite Hlen in Hlt.
    rewrite list_lookup_fmap, lookup_take_lt by lia.
    rewrite (at_indices_lookup _ _ k (k * 7)); [by rewrite (Nat.mul_comm 7)|done|].
    subst indices. apply range_step_lookup.
    replace (length recent_data + 7 - 1) with (length recent_data + 6) by lia. lia. }
  split_and!; [exact Hlen | exact Hk |].
  intros H90. rewrite H90 in Hlen. change (min 12 ((90 + 6) / 7)) with 12 in Hlen.
  apply list_eq. intros k. rewrite !list_lookup_fmap.
  destruct (decide (k < 12)) as [Hlt|Hge].
  - rewrite <- Hlen in Hlt. pose proof (Hk k Hlt) as Hv.
    rewrite list_lookup_fmap in Hv.
    destruct (lookup_lt_is_Some_2 _ _ Hlt) as [v Hv'].
    rewrite list_lookup_fmap in Hv'. rewrite Hv' in Hv |- *.
    rewrite Hlen in Hlt.
    do 12 (destruct k as [|k]; [simpl in Hv |- *; congruence|]). lia.
  - rewrite (lookup_ge_None_2 (take 12 _)), (lookup_ge_None_2 [_;_;_;_;_;_;_;_;_;_;_;_]);
      [done | simpl; lia |].
    rewrite length_fmap in Hlen. lia.
Qed.

Lemma crypto_every_seventh_witness :
  length (recent_prices noon_today hundred_prices) = 90
  ∧ get_crypto_friday_data noon_today hundred_prices
    = Ok [110%float; 117%float; 124%float; 131%float; 138%float; 145%float;
          152%float; 159%float; 166%float; 173%float; 180%float; 187%float].
Proof.
  destruct (crypto_every_seventh noon_today hundred_prices)
    as (out & Hout & _ & _ & H90).
  split; [reflexivity|]. rewrite Hout. f_equal.
  apply (inj (fmap Some)). rewrite H90; reflexivity.
Defined.

(* ===================================================================== *)
(** ** The ticker batch *)
(* ===================================================================== *)

Lemma get_stock_data_lines W ticker : Forall fetcher_line (get_stock_data W ticker).1.
Proof.
  unfold get_stock_data, stock_body.
  destruct (yf_info W ticker) as [info|]; cbn [bind]; [|by repeat constructor].
  destruct (yf_history W ticker) as [hist|]; cbn [bind]; [|by repeat constructor].
  destruct (empty hist); [by repeat constructor|].
  destruct (resolve_current_price info hist) as [[price|]|]; cbn [bind];
    [|by repeat constructor..].
  destruct (PrimFloat.leb price 0%float); [by repeat constructor|].
  destruct (calculate_changes (clock W) hist price); cbn [bind];
    by repeat constructor.
Qed.

Lemma get_crypto_data_lines W ticker : Forall fetcher_line (get_crypto_data W ticker).1.
Proof.
  unfold get_crypto_data. destruct (crypto_body W ticker); by repeat constructor.
Qed.

Lemma fetch_lines W ticker : Forall fetcher_line (fetch W ticker).1.
Proof.
  unfold fetch. destruct (provider_of ticker);
    [apply get_stock_data_lines | apply get_crypto_data_lines].
Qed.

Lemma reported_app out1 out2 : reported (out1 ++ out2) = reported out1 ++ reported out2.
Proof. apply omap_app. Qed.

Lemma shown_app out1 out2 : shown (out1 ++ out2) = shown out1 ++ shown out2.
Proof. apply bind_app. Qed.

Lemma reported_fetcher_lines out : Forall fetcher_line out → reported out = [].
Proof. induction 1 as [|line out Hl _ IH]; [done|]. by destruct line. Qed.

Lemma shown_fetcher_lines out : Forall fetcher_line out → shown out = [].
Proof. induction 1 as [|line out Hl _ IH]; [done|]. by destruct line. Qed.

(** The loop adds to [data_list] the snapshots of the tickers that were
    fetched, in order, and prints one [FailedToFetch] per ticker that was not. *)
Lemma fetch_loop_spec W tickers data_list :
  (fetch_loop W tickers data_list).2 = data_list ++ omap (outcome W) tickers
  ∧ reported (fetch_loop W tickers data_list).1 = List.filter (failing W) tickers
  ∧ shown (fetch_loop W tickers data_list).1 = [].
Proof.
  revert data_list. induction tickers as [|t rest IH]; intros data_list.
  - simpl. by rewrite app_nil_r.
  - cbn [fetch_loop]. unfold outcome at 1. unfold failing at 1. unfold outcome at 1.
    cbn [omap list_omap List.filter].
    pose proof (fetch_lines W t) as Hl.
    destruct (fetch W t) as [printed [d|]]; cbn [fst snd] in *.
    + destruct (IH (data_list ++ [d])) as (Hd & Hr & Hs).
      destruct (fetch_loop W rest (data_list ++ [d])) as [later final]; cbn [fst snd] in *.
      rewrite reported_app, shown_app, Hr, Hs.
      rewrite reported_fetcher_lines, shown_fetcher_lines by done.
      split_and!; [|done..]. by rewrite Hd, <- app_assoc.
    + destruct (IH data_list) as (Hd & Hr & Hs).
      destruct (fetch_loop W rest data_list) as [later final]; cbn [fst snd] in *.
      change (printed ++ FailedToFetch t :: later)
        with (printed ++ [FailedToFetch t] ++ later).
      rewrite !reported_app, !shown_app, Hr, Hs.
      by rewrite reported_fetcher_lines, shown_fetcher_lines by done.
Qed.

Lemma fetch_loop_lines W tickers data_list :
  (fetch_loop W tickers data_list).1
  = tickers ≫= fun t => (fetch W t).1 ++ if failing W t then [FailedToFetch t] else [].
Proof.
  revert data_list. induction tickers as [|t rest IH]; intros data_list; [done|].
  cbn [fetch_loop]. rewrite bind_cons. unfold failing at 1, outcome at 1.
  destruct (fetch W t) as [printed [d|]]; cbn [fst snd].
  - specialize (IH (data_list ++ [d])).
    destruct (fetch_loop W rest (data_list ++ [d])) as [later final]; cbn [fst snd] in *.
    by rewrite IH, app_nil_r.
  - specialize (IH data_list).
    destruct (fetch_loop W rest data_list) as [later final]; cbn [fst snd] in *.
    by rewrite IH, <- app_assoc.
Qed.

Lemma reported_print_rows panels : reported (print_rows panels) = [].
Proof.
  unfold print_rows.
  induction (range_step (length panels) max_tickers_per_row) as [|i l IH]; [done|].
  rewrite fmap_cons. change (mjoin (?x :: ?l)) with (x ++ mjoin l).
  by rewrite reported_app, IH.
Qed.

Lemma shown_print_rows panels : shown (print_rows panels) = panels.
Proof.
  unfold print_rows, range_step, max_tickers_per_row.
  set (m := (length panels + 4 - 1) / 4).
  assert (∀ a k, shown (mjoin ((fun i => [PanelRow (take 4 (drop i panels)); BlankLine])
                                 <$> ((fun j => j * 4) <$> seq a k)))
                 = take (k * 4) (drop (a * 4) panels)) as H.
  { intros a k. revert a. induction k as [|k IH]; intros a; [done|].
    change (seq a (S k)) with (a :: seq (S a) k).
    rewrite !fmap_cons.
    change (mjoin (?x :: ?l)) with (x ++ mjoin l).
    rewrite shown_app, IH.
    change (shown [PanelRow ?r; BlankLine]) with (r ++ []). rewrite app_nil_r.
    replace (S a * 4) with (a * 4 + 4) by lia. rewrite <- drop_drop.
    rewrite take_take_drop. f_equal. }
  rewrite H, drop_0. apply take_ge.
  subst m. pose proof (Nat.div_mod_eq (length panels + 4 - 1) 4) as Hd.
  pose proof (Nat.mod_upper_bound (length panels + 4 - 1) 4). lia.
Qed.

(** On a console that renders every line a failing ticker does not abort
    the batch: the output is, after the clear, the lines of every ticker in
    turn (each ticker is fetched, and a ticker whose fetch returned nothing
    adds its own "Failed to fetch data" line), followed by the panels.  The
    symbols reported are exactly the tickers that failed, the panels shown
    are exactly those of the tickers that succeeded, in order. *)
Lemma display_grid_lines (W : World) (tickers : list string) :
  display_grid W tickers
  = ClearScreen
    :: (tickers ≫= fun t =>
          (fetch W t).1 ++ if failing W t then [FailedToFetch t] else [])
    ++ (if empty (omap (outcome W) tickers) then [NoDataAvailable]
        else print_rows (create_ticker_panel <$> omap (outcome W) tickers)).
Proof.
  unfold display_grid.
  destruct (fetch_loop_spec W tickers []) as (Hd & _ & _).
  pose proof (fetch_loop_lines W tickers []) as Hp.
  destruct (fetch_loop W tickers []) as [printed data_list]; cbn [fst snd] in *.
  rewrite app_nil_l in Hd. subst data_list printed.
  by destruct (empty (omap (outcome W) tickers)).
Qed.

Lemma display_grid_reported_shown W tickers :
  reported (display_grid W tickers) = List.filter (failing W) tickers
  ∧ shown (display_grid W tickers) = create_ticker_panel <$> omap (outcome W) tickers.
Proof.
  unfold display_grid.
  destruct (fetch_loop_spec W tickers []) as (Hd & Hr & Hs).
  destruct (fetch_loop W tickers []) as [printed data_list]; cbn [fst snd] in *.
  rewrite app_nil_l in Hd. subst data_list.
  destruct (omap (outcome W) tickers) as [|d rest] eqn:Hd; cbn [empty].
  - change (ClearScreen :: printed ++ [NoDataAvailable])
      with ([ClearScreen] ++ printed ++ [NoDataAvailable]).
    rewrite !reported_app, !shown_app, Hr, Hs. by rewrite app_nil_r.
  - change (ClearScreen :: printed ++ ?x) with ([ClearScreen] ++ printed ++ x).
    rewrite !reported_app, !shown_app, Hr, Hs, shown_print_rows.
    by rewrite reported_print_rows, app_nil_r.
Qed.

(** *** The console that may raise *)

Section Rendering.
Variable rejects : Line → bool.
Hypothesis renders : ∀ line, rejects line = false.

Lemma print_lines_renders lines : print_lines rejects lines = (lines, Ok tt).
Proof using renders.
  induction lines as [|line rest IH]; [done|].
  cbn [print_lines]. unfold console_print. rewrite renders.
  cbn [and_then]. by rewrite IH.
Qed.

Lemma report_error_renders line : report_error rejects line = ([line], Ok None).
Proof using renders. unfold report_error, console_print. by rewrite renders. Qed.

Lemma fetch_on_renders W ticker :
  fetch_on rejects W ticker = ((fetch W ticker).1, Ok (fetch W ticker).2).
Proof using renders.
  unfold fetch_on, fetch. destruct (provider_of ticker).
  - unfold get_stock_data_on, get_stock_data.
    destruct (stock_body W ticker) as [[lines data]|e].
    + by rewrite print_lines_renders.
    + by rewrite report_error_renders.
  - unfold get_crypto_data_on, get_crypto_data.
    destruct (crypto_body W ticker) as [data|e]; [done|].
    by rewrite report_error_renders.
Qed.

Lemma fetch_loop_on_renders W tickers data_list :
  fetch_loop_on rejects W tickers data_list
  = ((fetch_loop W tickers data_list).1, Ok (fetch_loop W tickers data_list).2).
Proof using renders.
  revert data_list. induction tickers as [|t rest IH]; intros data_list; [done|].
  cbn [fetch_loop_on fetch_loop]. rewrite fetch_on_renders.
  destruct (fetch W t) as [printed [d|]]; cbn [fst snd and_then].
  - rewrite IH. by destruct (fetch_loop W rest (data_list ++ [d])).
  - unfold console_print. rewrite renders. cbn [and_then]. rewrite IH.
    by destruct (fetch_loop W rest data_list).
Qed.

Lemma print_rows_on_renders (indices : list nat) (panels : list Panel) :
  print_rows_on rejects ((fun i => take max_tickers_per_row (drop i panels)) <$> indices)
  = (mjoin ((fun i => [PanelRow (take max_tickers_per_row (drop i panels)); BlankLine])
              <$> indices), Ok tt).
Proof using renders.
  induction indices as [|i rest IH]; [done|].
  rewrite !fmap_cons. cbn [print_rows_on]. unfold console_print. rewrite renders.
  cbn [and_then]. by rewrite IH.
Qed.

(** With every line rendered, [display_grid_on] returns and has printed
    the lines of [display_grid]. *)
Lemma display_grid_on_renders W tickers :
  display_grid_on rejects W tickers = (display_grid W tickers, Ok tt).
Proof using renders.
  unfold display_grid_on, display_grid. cbn [and_then].
  rewrite fetch_loop_on_renders.
  destruct (fetch_loop W tickers []) as [printed data_list]; cbn [fst snd and_then].
  destruct (empty data_list); [done|].
  unfold rows_of. rewrite print_rows_on_renders. done.
Qed.

End Rendering.

(** The body of [get_stock_data] prints nothing and returns a snapshot, or
    prints one line and returns [None], or raises. *)
Lemma stock_body_cases W t :
  (∃ d, stock_body W t = Ok ([], Some d))
  ∨ stock_body W t = Ok ([NoHistoricalData t], None)
  ∨ stock_body W t = Ok ([InvalidPriceData t], None)
  ∨ ∃ e, stock_body W t = Raise e.
Proof.
  unfold stock_body.
  destruct (yf_info W t) as [info|e]; cbn [bind]; [|by right; right; right; eexists].
  destruct (yf_history W t) as [hist|e]; cbn [bind]; [|by right; right; right; eexists].
  destruct (empty hist); [by right; left|].
  destruct (resolve_current_price info hist) as [[price|]|e]; cbn [bind];
    [|by right; right; left|by right; right; right; eexists].
  destruct (PrimFloat.leb price 0%float); [by right; right; left|].
  destruct (calculate_changes (clock W) hist price) as [cs|e]; cbn [bind];
    [by left; eexists|by right; right; right; eexists].
Qed.

(** C9.  A ticker can abort the batch.  The lines [display_grid] and the
    fetchers print embed the ticker, and [console.print] raises
    [MarkupError] on a ticker such as [/x].  For such a ticker without
    history the "No historical data" line raises inside the [try] of
    [get_stock_data]; the handler's own "Error fetching stock data" line
    raises again, now outside any [try], and [display_grid] ends there:
    whatever tickers follow are not fetched, and the panels of the tickers
    fetched before are not shown.  In every world the ticker [/x] either
    yields a snapshot or ends the batch.  On a console that renders every
    line the same batch reports the failing symbol and shows the panel of
    the other; there, for every batch, the symbols reported are exactly
    the tickers that failed and the panels shown exactly those of the
    tickers that succeeded. *)
Theorem display_grid_aborts_on_markup :
  (provider_of "[/x]" = stock
   ∧ stock_body markup_world "[/x]" = Ok ([NoHistoricalData "[/x]"], None)
   ∧ get_stock_data_on rejects_closing_tag markup_world "[/x]"
     = ([], Raise MarkupError))
  ∧ (∀ rest,
     display_grid_on rejects_closing_tag markup_world ("[/x]" :: rest)
     = ([ClearScreen], Raise MarkupError))
  ∧ (∀ W rest,
       (∃ d, get_stock_data_on rejects_closing_tag W "[/x]" = ([], Ok (Some d)))
       ∨ display_grid_on rejects_closing_tag W ("[/x]" :: rest)
         = ([ClearScreen], Raise MarkupError))
  ∧ (∃ d, fetch_on rejects_closing_tag markup_world "AAPL" = ([], Ok (Some d)))
  ∧ display_grid_on rejects_closing_tag markup_world ["[/x]"; "AAPL"]
    = ([ClearScreen], Raise MarkupError)
  ∧ display_grid_on rejects_closing_tag markup_world ["AAPL"; "[/x]"]
    = ([ClearScreen], Raise MarkupError)
  ∧ (∃ out, display_grid_on renders_all markup_world ["[/x]"; "AAPL"] = (out, Ok tt)
            ∧ reported out = ["[/x]"]
            ∧ (ticker ∘ content) <$> shown out = ["AAPL"])
  ∧ (∀ rejects W tickers,
       (∀ line, rejects line = false) →
       display_grid_on rejects W tickers = (display_grid W tickers, Ok tt)
       ∧ reported (display_grid W tickers) = List.filter (failing W) tickers
       ∧ shown (display_grid W tickers)
         = create_ticker_panel <$> omap (outcome W) tickers).
Proof.
  assert (fetch_on rejects_closing_tag markup_world "[/x]" = ([], Raise MarkupError))
    as Hx by (vm_compute; reflexivity).
  split_and!.
  - reflexivity.
  - vm_compute. reflexivity.
  - vm_compute. reflexivity.
  - intros rest. unfold display_grid_on. cbn [fetch_loop_on]. by rewrite Hx.
  - intros W rest.
    assert (fetch_on rejects_closing_tag W "[/x]"
            = get_stock_data_on rejects_closing_tag W "[/x]") as Hf by reflexivity.
    unfold display_grid_on. cbn [fetch_loop_on]. rewrite Hf.
    unfold get_stock_data_on.
    destruct (stock_body_cases W "[/x]") as [[d ->]|[->|[->|[e ->]]]].
    + left. by exists d.
    + right. reflexivity.
    + right. reflexivity.
    + right. reflexivity.
  - eexists. vm_compute. reflexivity.
  - unfold display_grid_on. cbn [fetch_loop_on]. by rewrite Hx.
  - vm_compute. reflexivity.
  - eexists. split_and!; vm_compute; reflexivity.
  - intros rejects W tickers Hr.
    destruct (display_grid_reported_shown W tickers) as [Hrep Hsh].
    split_and!; [by apply display_grid_on_renders | done | done].
Qed.

(* ===================================================================== *)
(** ** Which provider a ticker goes to *)
(* ===================================================================== *)

(** C10. A ticker goes to the crypto fetcher exactly when its upper-cased
    symbol is one of the 12 entries of the list of line 406, and to the
    stock fetcher otherwise.  HBAR, in any case of its letters, has an entry
    in [crypto_mapping] but is not in that list, and goes to the stock
    fetcher. *)
Theorem crypto_dispatch (ticker : string) :
  crypto_tickers = [ "BTC"; "ETH"; "ADA"; "DOT"; "LINK"; "LTC"; "XRP"; "DOGE";
                     "SHIB"; "MATIC"; "AVAX"; "SOL" ]
  ∧ (provider_of ticker = crypto ↔ upper ticker ∈ crypto_tickers)
  ∧ (provider_of ticker = stock ↔ upper ticker ∉ crypto_tickers)
  ∧ (∀ W, fetch W ticker = match provider_of ticker with
                           | crypto => get_crypto_data W ticker
                           | stock => get_stock_data W ticker
                           end)
  ∧ (upper ticker = "HBAR" →
     crypto_mapping !! upper ticker = Some "hedera-hashgraph"
     ∧ provider_of ticker = stock
     ∧ ∀ W, fetch W ticker = get_stock_data W ticker).
Proof.
  split_and!.
  - reflexivity.
  - unfold provider_of. destruct (bool_decide_reflect (upper ticker ∈ crypto_tickers));
      split; intros; done.
  - unfold provider_of. destruct (bool_decide_reflect (upper ticker ∈ crypto_tickers));
      split; intros; done.
  - reflexivity.
  - intros Hu.
    assert (provider_of ticker = stock) as Hp.
    { unfold provider_of. rewrite Hu. by vm_compute. }
    split_and!; [rewrite Hu; by vm_compute | done |].
    intros W. unfold fetch. by rewrite Hp.
Qed.

Lemma crypto_dispatch_witness :
  provider_of "hBaR" = stock
  ∧ coin_id_of "hBaR" = "hedera-hashgraph"
  ∧ fetch (quiet_world 5 7) "hBaR" = get_stock_data (quiet_world 5 7) "hBaR".
Proof.
  destruct (crypto_dispatch "hBaR") as (_ & _ & _ & _ & H).
  destruct H as (Hm & Hp & Hf); [reflexivity|].
  split_and!; [exact Hp | | apply Hf].
  unfold coin_id_of, Py.get. by rewrite Hm.
Defined.

(* ===================================================================== *)
(** ** Change calculator: further properties *)
(* ===================================================================== *)

Lemma guarded_change_suffix g k pre hist_data cur :
  1 ≤ k → g ≤ length hist_data → k ≤ length hist_data →
  guarded_change g k (pre ++ hist_data) cur = guarded_change g k hist_data cur.
Proof.
  intros Hk Hg Hl.
  destruct (guarded_change_anchor g k hist_data cur) as (a & Ha & ->); [done..|].
  destruct (guarded_change_anchor g k (pre ++ hist_data) cur) as (b & Hb & ->);
    [done | rewrite length_app; lia..|].
  unfold closes in Ha, Hb. rewrite fmap_app, length_app in Hb.
  rewrite lookup_app_r in Hb by (rewrite length_fmap; lia).
  rewrite length_fmap in Hb.
  replace (length pre + length hist_data - k - length pre) with (length hist_data - k)
    in Hb by lia.
  congruence.
Qed.

(** The 24h, 7d and 30d entries depend only on the last 31 closes: rows
    put in front of a frame of at least 31 rows change none of them. *)
Theorem positional_changes_suffix (now : Z) (pre hist_data : DataFrame) (cur : float) :
  31 ≤ length hist_data →
  ∃ cs cs',
    calculate_changes now (pre ++ hist_data) cur = Ok cs
    ∧ calculate_changes now hist_data cur = Ok cs'
    ∧ h24 cs = h24 cs' ∧ d7 cs = d7 cs' ∧ d30 cs = d30 cs'.
Proof.
  intros Hl.
  destruct (calculate_changes_outcome now hist_data cur)
    as [(cs' & Hcs' & _)|[_ ?]]; [|lia].
  destruct (calculate_changes_outcome now (pre ++ hist_data) cur)
    as [(cs & Hcs & _)|[_ H]]; [|rewrite length_app in H; lia].
  exists cs, cs'. split_and!; [done..| | |].
  all: assert (hist_data ≠ []) as Hne by (intros ->; simpl in Hl; lia).
  all: assert (pre ++ hist_data ≠ []) as Hne' by (by destruct pre, hist_data).
  all: destruct (calculate_changes_steps _ _ _ _ Hne Hcs') as (A & B & C & _).
  all: destruct (calculate_changes_steps _ _ _ _ Hne' Hcs) as (A' & B' & C' & _).
  - rewrite change_24h_guarded in A, A'.
    rewrite guarded_change_suffix in A' by lia. congruence.
  - rewrite change_7d_guarded in B, B'.
    rewrite guarded_change_suffix in B' by lia. congruence.
  - rewrite change_30d_guarded in C, C'.
    rewrite guarded_change_suffix in C' by lia. congruence.
Qed.

Lemma positional_changes_suffix_witness :
  ∃ cs, calculate_changes noon_today (old_rows ++ last_days 40) 139%float = Ok cs
        ∧ d30 cs = pct_change 139%float 109%float.
Proof.
  destruct (positional_changes_suffix noon_today old_rows (last_days 40) 139%float)
    as (cs & cs' & Hcs & Hcs' & _ & _ & H30); [vm_compute; lia|].
  exists cs. split; [exact Hcs|]. rewrite H30.
  vm_compute in Hcs'. injection Hcs' as <-. reflexivity.
Defined.

Lemma finite_nonzero_spec a :
  is_finite a = true → is_zero a = false → ∃ s m e, Prim2SF a = S754_finite s m e.
Proof.
  unfold is_finite, is_zero, is_nan, is_infinity.
  rewrite !FloatAxioms.eqb_spec, abs_spec.
  change (Prim2SF infinity) with (S754_infinity false).
  change (Prim2SF 0%float) with (S754_zero false).
  destruct (Prim2SF a) as [s|s| |s m e]; simpl; try done; eauto.
  by destruct s.
Qed.

(** A current price equal to a finite, nonzero anchor is a change of 0. *)
Theorem pct_change_same (a : float) :
  is_finite a = true → is_zero a = false → is_zero (pct_change a a) = true.
Proof.
  intros Hf Hz. destruct (finite_nonzero_spec a Hf Hz) as (s & m & e & Ha).
  assert (∃ m' e', Prim2SF 100%float = S754_finite false m' e') as (m' & e' & H100)
    by (vm_compute; eauto).
  unfold is_zero, pct_change.
  rewrite FloatAxioms.eqb_spec, mul_spec, div_spec, sub_spec, Ha, H100.
  change (Prim2SF 0%float) with (S754_zero false).
  unfold SF64sub, SFsub. rewrite Z.sub_diag. cbn [binary_normalize].
  unfold SF64div, SFdiv, SF64mul, SFmul. reflexivity.
Qed.

Lemma pct_change_same_witness : is_zero (pct_change 139%float 139%float) = true.
Proof. apply pct_change_same; reflexivity. Defined.

(* ===================================================================== *)
(** ** The fetchers: further properties *)
(* ===================================================================== *)

(** On a non-empty history the price is always resolved. *)
Lemma resolve_current_price_some info hist :
  hist ≠ [] →
  ∃ p, resolve_current_price info hist = Ok (Some p)
       ∧ (info_price info "currentPrice" = None →
          info_price info "regularMarketPrice" = None →
          info_price info "previousClose" = None →
          last (closes hist) = Some p).
Proof.
  intros Hne. unfold resolve_current_price.
  destruct (info_price info "currentPrice") as [p|]; [by eexists|].
  destruct (info_price info "regularMarketPrice") as [p|]; [by eexists|].
  destruct (info_price info "previousClose") as [p|]; [by eexists|].
  destruct (iloc_from_end (closes hist) 1) as (p & Hp & Hi);
    [lia | rewrite closes_length; destruct hist; [done | simpl; lia] |].
  change (- Z.of_nat 1)%Z with (-1)%Z in Hi. rewrite Hi. exists p. split; [done|].
  intros _ _ _. rewrite last_lookup.
  rewrite <- Hp. f_equal. lia.
Qed.

(** A stock whose one-year history has exactly 7 or exactly 30 rows is
    never shown: [get_stock_data] returns no snapshot for it. *)
Theorem get_stock_data_short_history (W : World) (ticker : string)
    (info : gmap string (option float)) (hist : DataFrame) :
  yf_info W ticker = Ok info →
  yf_history W ticker = Ok hist →
  length hist = 7 ∨ length hist = 30 →
  get_stock_data W ticker = ([InvalidPriceData ticker], None)
  ∨ get_stock_data W ticker = ([ErrorFetchingStock ticker IndexError], None).
Proof.
  intros Hi Hh Hl. unfold get_stock_data, stock_body. rewrite Hi, Hh. cbn [bind].
  assert (hist ≠ []) as Hne by (intros ->; simpl in Hl; lia).
  rewrite (proj2 (empty_false hist) Hne).
  destruct (resolve_current_price_some info hist Hne) as (p & -> & _). cbn [bind].
  destruct (PrimFloat.leb p 0%float); [by left|].
  destruct (calculate_changes_outcome (clock W) hist p) as [(cs & _ & ? & ?)|[-> _]];
    [lia|]. by right.
Qed.

Lemma get_stock_data_short_history_witness :
  get_stock_data (answering ∅ (last_days 7) ∅ []) "NEW"
  = ([ErrorFetchingStock "NEW" IndexError], None).
Proof.
  destruct (get_stock_data_short_history (answering ∅ (last_days 7) ∅ []) "NEW"
              ∅ (last_days 7)) as [H|H];
    [reflexivity | reflexivity | left; reflexivity | | exact H].
  vm_compute in H. discriminate H.
Defined.

(** What every snapshot of [get_stock_data] satisfies. *)
Theorem get_stock_data_snapshot (W : World) (t : string)
    (printed : list Line) (d : Snapshot) :
  get_stock_data W t = (printed, Some d) →
  printed = []
  ∧ ticker d = upper t
  ∧ type d = stock
  ∧ PrimFloat.leb (current_price d) 0%float = false
  ∧ length (friday_data d) ≤ 12
  ∧ ∃ hist, yf_history W t = Ok hist
            ∧ hist ≠ [] ∧ length hist ≠ 7 ∧ length hist ≠ 30
            ∧ calculate_changes (clock W) hist (current_price d) = Ok (changes d)
            ∧ friday_data d = get_friday_data (yf_tz_aware W t) (clock W) hist.
Proof.
  unfold get_stock_data, stock_body.
  destruct (yf_info W t) as [info|]; cbn [bind]; [|done].
  destruct (yf_history W t) as [hist|]; cbn [bind]; [|done].
  destruct (empty hist) eqn:He; [done|]. apply empty_false in He.
  destruct (resolve_current_price info hist) as [[price|]|]; cbn [bind]; [|done..].
  destruct (PrimFloat.leb price 0%float) eqn:Hle; [done|].
  destruct (calculate_changes_outcome (clock W) hist price)
    as [(cs & Hcs & H7 & H30)|[-> _]]; [|done].
  rewrite Hcs. cbn [bind]. intros [= <- <-]. cbn.
  split_and!; try done.
  - apply get_friday_data_bounded.
  - by exists hist.
Qed.

Lemma get_stock_data_snapshot_witness :
  ∃ d, get_stock_data (quiet_world 5 0) "aapl" = ([], Some d)
       ∧ ticker d = "AAPL" ∧ length (friday_data d) ≤ 12.
Proof.
  destruct (get_stock_data (quiet_world 5 0) "aapl") as [printed [d|]] eqn:E;
    [|vm_compute in E; discriminate E].
  destruct (get_stock_data_snapshot _ _ _ _ E) as (-> & Ht & _ & _ & Hf & _).
  exists d. split_and!; [reflexivity | by rewrite Ht | exact Hf].
Defined.

(** A stock for which [stock.info] holds no usable price is priced at the
    last close of its history. *)
Theorem get_stock_data_last_close (W : World) (ticker : string)
    (info : gmap string (option float)) (hist : DataFrame) (p : float) :
  yf_info W ticker = Ok info →
  yf_history W ticker = Ok hist →
  info_price info "currentPrice" = None →
  info_price info "regularMarketPrice" = None →
  info_price info "previousClose" = None →
  last (closes hist) = Some p →
  (PrimFloat.leb p 0%float = true →
   get_stock_data W ticker = ([InvalidPriceData ticker], None))
  ∧ (PrimFloat.leb p 0%float = false → length hist ≠ 7 → length hist ≠ 30 →
     ∃ d, get_stock_data W ticker = ([], Some d) ∧ current_price d = p).
Proof.
  intros Hi Hh H1 H2 H3 Hp.
  assert (hist ≠ []) as Hne by (by intros ->).
  destruct (resolve_current_price_some info hist Hne) as (p' & Hr & Hlast).
  specialize (Hlast H1 H2 H3). rewrite Hp in Hlast. injection Hlast as <-.
  unfold get_stock_data, stock_body. rewrite Hi, Hh. cbn [bind].
  rewrite (proj2 (empty_false hist) Hne), Hr. cbn [bind]. split.
  - by intros ->.
  - intros -> H7 H30.
    destruct (calculate_changes_outcome (clock W) hist p) as [(cs & -> & _)|[_ ?]];
      [|lia]. cbn [bind]. by eexists.
Qed.

Lemma get_stock_data_last_close_witness :
  ∃ d, get_stock_data (answering {[ "currentPrice" := None ]} (last_days 40) ∅ []) "AAPL"
       = ([], Some d)
       ∧ current_price d = 139%float.
Proof.
  destruct (get_stock_data_last_close
              (answering {[ "currentPrice" := None ]} (last_days 40) ∅ []) "AAPL"
              {[ "currentPrice" := None ]} (last_days 40) 139%float) as [_ H];
    [reflexivity..|].
  apply H; [reflexivity | vm_compute; lia | vm_compute; lia].
Defined.

(* ===================================================================== *)
(** ** The crypto fetcher and the letter case of tickers *)
(* ===================================================================== *)

(** Every ticker that goes to the crypto fetcher has an entry in
    [crypto_mapping]: for it the coin id is that entry, never the
    lower-cased ticker. *)
Theorem crypto_tickers_mapped (t : string) :
  provider_of t = crypto →
  crypto_mapping !! upper t = Some (coin_id_of t).
Proof.
  unfold provider_of. destruct (bool_decide_reflect (upper t ∈ crypto_tickers)) as [H|];
    [intros _|done].
  unfold coin_id_of, crypto_tickers in *.
  repeat (apply elem_of_cons in H as [->|H]; [by vm_compute|]).
  by apply elem_of_nil in H.
Qed.

Lemma crypto_tickers_mapped_witness :
  coin_id_of "Doge" = "dogecoin".
Proof.
  pose proof (crypto_tickers_mapped "Doge" eq_refl) as H.
  apply (inj Some). rewrite <- H. reflexivity.
Defined.

(** What every snapshot of [get_crypto_data] satisfies: its 24h, 7d and
    30d changes are the fields of the provider's quote, 0 where the quote
    has none; only the YTD change and the trend come from the history. *)
Theorem get_crypto_data_snapshot (W : World) (t : string)
    (printed : list Line) (d : Snapshot) :
  get_crypto_data W t = (printed, Some d) →
  printed = []
  ∧ ticker d = upper t
  ∧ type d = crypto
  ∧ length (friday_data d) ≤ 12
  ∧ ∃ data coin_data prices,
      simple_price W (coin_id_of t) = Ok data
      ∧ data !! coin_id_of t = Some coin_data
      ∧ market_chart W (coin_id_of t) = Ok prices
      ∧ coin_data !! "usd" = Some (current_price d)
      ∧ h24 (changes d) = Py.get coin_data "usd_24h_change" 0%float
      ∧ d7 (changes d) = Py.get coin_data "usd_7d_change" 0%float
      ∧ d30 (changes d) = Py.get coin_data "usd_30d_change" 0%float
      ∧ calculate_ytd_change (clock W) prices (current_price d) = Ok (ytd (changes d))
      ∧ get_crypto_friday_data (clock W) prices = Ok (friday_data d).
Proof.
  unfold get_crypto_data, crypto_body.
  change (lower currency_default) with "usd".
  destruct (simple_price W (coin_id_of t)) as [data|] eqn:Hd; cbn [bind]; [|done].
  destruct (data !! coin_id_of t) as [coin_data|] eqn:Hc; [|done].
  unfold getitem at 1.
  destruct (coin_data !! "usd") as [price|] eqn:Hp; cbn [bind]; [|done].
  destruct (market_chart W (coin_id_of t)) as [prices|] eqn:Hm; cbn [bind]; [|done].
  destruct (calculate_ytd_change (clock W) prices price) as [y|] eqn:Hy;
    cbn [bind]; [|done].
  destruct (get_crypto_friday_data (clock W) prices) as [f|] eqn:Hf;
    cbn [bind]; [|done].
  intros [= <- <-]. cbn.
  split_and!; try done.
  - rewrite get_crypto_friday_data_take in Hf. injection Hf as <-.
    rewrite length_fmap, length_take. lia.
  - exists data, coin_data, prices. by split_and!.
Qed.

Lemma get_crypto_data_snapshot_witness :
  ∃ d, get_crypto_data (answering ∅ [] {[ "usd" := 7%float; "usd_24h_change" := 2%float ]}
                          hundred_prices) "btc" = ([], Some d)
       ∧ ticker d = "BTC"
       ∧ length (friday_data d) ≤ 12
       ∧ h24 (changes d) = 2%float ∧ d7 (changes d) = 0%float
       ∧ d30 (changes d) = 0%float.
Proof.
  destruct (get_crypto_data
              (answering ∅ [] {[ "usd" := 7%float; "usd_24h_change" := 2%float ]}
                 hundred_prices) "btc") as [printed [d|]] eqn:E;
    [|vm_compute in E; discriminate E].
  destruct (get_crypto_data_snapshot _ _ _ _ E) as (-> & Ht & _ & Hf & _).
  exists d. split_and!; [reflexivity | rewrite Ht; reflexivity | exact Hf | ..];
    vm_compute in E; injection E as <-; reflexivity.
Defined.

(** A crypto ticker whose first price of the year is 0 is rejected: the
    division by zero of the YTD change is caught and reported. *)
Theorem get_crypto_data_zero_anchor (W : World) (t : string)
    (data : gmap string (gmap string float)) (coin_data : gmap string float)
    (price p : float) (prices : list (Z * float)) :
  simple_price W (coin_id_of t) = Ok data →
  data !! coin_id_of t = Some coin_data →
  coin_data !! "usd" = Some price →
  market_chart W (coin_id_of t) = Ok prices →
  first_price_from (Calendar.year_start_ms (Calendar.year (clock W))) prices = Some p →
  is_zero p = true →
  get_crypto_data W t = ([ErrorFetchingCrypto t ZeroDivisionError], None).
Proof.
  intros Hd Hc Hp Hm Hf Hz. unfold get_crypto_data, crypto_body.
  change (lower currency_default) with "usd".
  rewrite Hd. cbn [bind]. rewrite Hc. unfold getitem. rewrite Hp. cbn [bind].
  rewrite Hm. cbn [bind]. unfold calculate_ytd_change.
  destruct prices as [|q rest]; [done|]. cbn [empty]. rewrite Hf.
  by rewrite py_pct_change_zero_anchor.
Qed.

Lemma get_crypto_data_zero_anchor_witness :
  get_crypto_data (answering ∅ [] {[ "usd" := 7%float ]}
                     (daily_ms (today - 1) [0%float; 7%float])) "BTC"
  = ([ErrorFetchingCrypto "BTC" ZeroDivisionError], None).
Proof.
  by apply (get_crypto_data_zero_anchor _ "BTC" {[ "bitcoin" := {[ "usd" := 7%float ]} ]}
              {[ "usd" := 7%float ]} 7%float 0%float
              (daily_ms (today - 1) [0%float; 7%float])).
Defined.

Lemma upper_ascii_idemp c :
  upper_ascii (upper_ascii c) = upper_ascii c
  ∧ upper_ascii (lower_ascii c) = upper_ascii c
  ∧ lower_ascii (upper_ascii c) = lower_ascii c
  ∧ lower_ascii (lower_ascii c) = lower_ascii c.
Proof.
  destruct c as [b0 b1 b2 b3 b4 b5 b6 b7].
  destruct b0, b1, b2, b3, b4, b5, b6, b7; by vm_compute.
Qed.

Lemma upper_lower_idemp s :
  upper (upper s) = upper s ∧ upper (lower s) = upper s
  ∧ lower (upper s) = lower s ∧ lower (lower s) = lower s.
Proof.
  induction s as [|c s (IH1 & IH2 & IH3 & IH4)]; [done|].
  destruct (upper_ascii_idemp c) as (H1 & H2 & H3 & H4).
  cbn [upper lower]. by rewrite IH1, IH2, IH3, IH4, H1, H2, H3, H4.
Qed.

(** The letter case of a ticker does not matter to the choice of the
    fetcher, to the coin id, or to what the crypto fetcher returns. *)
Theorem ticker_case_insensitive (W : World) (t : string) :
  provider_of (upper t) = provider_of t
  ∧ provider_of (lower t) = provider_of t
  ∧ coin_id_of (upper t) = coin_id_of t
  ∧ coin_id_of (lower t) = coin_id_of t
  ∧ (get_crypto_data W (upper t)).2 = (get_crypto_data W t).2
  ∧ (get_crypto_data W (lower t)).2 = (get_crypto_data W t).2.
Proof.
  destruct (upper_lower_idemp t) as (H1 & H2 & H3 & H4).
  assert (∀ t', upper t' = upper t → lower t' = lower t →
                (get_crypto_data W t').2 = (get_crypto_data W t).2) as Hg.
  { intros t' Hu Hl. unfold get_crypto_data, crypto_body, coin_id_of.
    rewrite Hu, Hl.
    by destruct (simple_price W _) as [data|]; cbn [bind];
      [destruct (data !! _); [destruct (getitem _ _); cbn [bind];
         [destruct (market_chart W _); cbn [bind];
            [destruct (calculate_ytd_change _ _ _); cbn [bind];
               [destruct (get_crypto_friday_data _ _); cbn [bind]|]|]|]|]|]. }
  unfold provider_of, coin_id_of. rewrite H1, H2, H3, H4.
  split_and!; try done; apply Hg; done.
Qed.

(* ===================================================================== *)
(** ** Year to date and the sampler: further properties *)
(* ===================================================================== *)

Lemma find_app_none {A} (f : A → bool) (old l : list A) :
  Forall (fun x => f x = false) old → List.find f (old ++ l) = List.find f l.
Proof. induction 1 as [|x old Hx _ IH]; simpl; [done|]. by rewrite Hx. Qed.

Lemma filter_app_none {A} (f : A → bool) (old l : list A) :
  Forall (fun x => f x = false) old → List.filter f (old ++ l) = List.filter f l.
Proof. intros H. by rewrite List.filter_app, (filter_all_false f old H). Qed.

(** Pairs older than the start of the year, put in front of a crypto
    history, do not change the YTD change. *)
Theorem calculate_ytd_change_older (now : Z) (old price_data : list (Z * float))
    (cur : float) :
  Forall (fun p => (p.1 < Calendar.year_start_ms (Calendar.year now))%Z) old →
  calculate_ytd_change now (old ++ price_data) cur
  = calculate_ytd_change now price_data cur.
Proof.
  intros Hold. rewrite !calculate_ytd_change_find. rewrite find_app_none; [done|].
  eapply Forall_impl; [exact Hold|]. intros p Hp. simpl in *. apply Z.leb_gt. lia.
Qed.

Lemma calculate_ytd_change_older_witness :
  calculate_ytd_change noon_today (last_year_prices ++ hundred_prices) 150%float
  = Ok (pct_change 150%float 100%float).
Proof.
  rewrite (calculate_ytd_change_older noon_today last_year_prices hundred_prices);
    [reflexivity|]. repeat constructor.
Defined.

(** Points older than 90 days, put in front of a series, change the trend
    neither on the crypto path nor on the equity path under a naive index.
    Under a tz-aware index the equity trend is the last 12 closes of the
    whole frame: rows put in front of 12 rows or more change nothing, rows
    put in front of fewer appear in the trend. *)
Theorem sampler_ignores_old_points (now : Z) :
  (∀ old hist_data,
     Forall (fun r => (date r < three_months_ago now)%Z) old →
     get_friday_data false now (old ++ hist_data) = get_friday_data false now hist_data)
  ∧ (∀ old hist_data,
       12 ≤ length hist_data →
       get_friday_data true now (old ++ hist_data) = get_friday_data true now hist_data)
  ∧ (∀ old hist_data,
       length hist_data < 12 →
       get_friday_data true now (old ++ hist_data)
       = tail (12 - length hist_data) (closes old) ++ get_friday_data true now hist_data)
  ∧ (∀ old price_data,
       Forall (fun p => (p.1 * 1000 < three_months_ago now)%Z) old →
       get_crypto_friday_data now (old ++ price_data)
       = get_crypto_friday_data now price_data).
Proof.
  split_and!.
  - intros old hist_data Hold. rewrite !get_friday_data_rows.
    unfold recent_rows. rewrite filter_app_none; [done|].
    eapply Forall_impl; [exact Hold|]. intros r Hr. simpl in *. apply Z.leb_gt. lia.
  - intros old hist_data Hl. rewrite !get_friday_data_aware.
    unfold tail, closes. rewrite fmap_app, length_app, !length_fmap.
    rewrite drop_app_ge by (rewrite length_fmap; lia).
    f_equal. rewrite length_fmap. lia.
  - intros old hist_data Hl. rewrite !get_friday_data_aware.
    unfold tail, closes. rewrite fmap_app, length_app, !length_fmap.
    rewrite drop_app_le by (rewrite length_fmap; lia).
    replace (length hist_data - 12) with 0 by lia. rewrite drop_0.
    do 2 f_equal. lia.
  - intros old price_data Hold. rewrite !get_crypto_friday_data_take.
    unfold recent_prices. rewrite filter_app_none; [done|].
    eapply Forall_impl; [exact Hold|]. intros p Hp. simpl in *. apply Z.leb_gt. lia.
Qed.

Lemma sampler_ignores_old_points_witness :
  get_friday_data false noon_today (old_rows ++ last_days 40)
  = get_friday_data false noon_today (last_days 40)
  ∧ get_friday_data true noon_today (old_rows ++ last_days 40)
    = get_friday_data true noon_today (last_days 40)
  ∧ get_friday_data true noon_today (old_rows ++ last_days 2)
    = [1%float; 2%float; 3%float; 100%float; 101%float]
  ∧ get_crypto_friday_data noon_today (old_prices ++ hundred_prices)
    = get_crypto_friday_data noon_today hundred_prices.
Proof.
  destruct (sampler_ignores_old_points noon_today) as (He & Ha & Hs & Hc).
  split_and!.
  - apply He. repeat constructor.
  - apply Ha. vm_compute. lia.
  - rewrite Hs by (vm_compute; lia). vm_compute. reflexivity.
  - apply Hc. repeat constructor.
Defined.

(** On a naive index: when the 90-day window holds a Friday, the equity
    trend is the closes of the last 12 Friday rows of the window, so every
    row sampled is a row of the frame, dated on a Friday within the last 90
    days; when it holds none, the trend is the last 12 closes of the
    window.  On a tz-aware index the trend is the last 12 closes of the
    frame, whatever their weekday and age. *)
Theorem get_friday_data_fridays (now : Z) (hist_data : DataFrame) :
  let fridays := friday_rows (recent_rows now hist_data) in
  (fridays ≠ [] →
   ∃ sel, get_friday_data false now hist_data = closes sel
          ∧ sel `suffix_of` fridays
          ∧ length sel = min 12 (length fridays)
          ∧ Forall (fun r => r ∈ hist_data
                             ∧ Calendar.weekday (date r) = 4%Z
                             ∧ (three_months_ago now ≤ date r)%Z) sel)
  ∧ (fridays = [] →
     get_friday_data false now hist_data
     = tail 12 (closes (recent_rows now hist_data)))
  ∧ get_friday_data true now hist_data = tail 12 (closes hist_data).
Proof.
  intros fridays. split_and!; [| |apply get_friday_data_aware].
  - rewrite get_friday_data_rows. fold fridays.
    intros Hne. rewrite (proj2 (empty_false fridays) Hne).
    exists (tail 12 fridays). split_and!; [done | apply suffix_drop | apply length_tail |].
    apply Forall_forall. intros r Hr.
    pose proof (elem_of_sublist _ _ _ Hr (tail_sublist 12 fridays)) as Hf.
    clear Hr. subst fridays. unfold friday_rows, recent_rows in Hf.
    apply list_elem_of_In, List.filter_In in Hf as [Hf Hw].
    apply List.filter_In in Hf as [Hin Hd].
    split_and!; [by apply list_elem_of_In | by apply Z.eqb_eq | by apply Z.leb_le].
  - rewrite get_friday_data_rows. fold fridays.
    intros ->. cbn [empty]. by rewrite closes_tail.
Qed.

Lemma get_friday_data_fridays_witness :
  (∃ sel, get_friday_data false noon_today (last_days 100) = closes sel
          ∧ length sel = 12
          ∧ Forall (fun r => Calendar.weekday (date r) = 4%Z) sel)
  ∧ get_friday_data true noon_today (last_days 100)
    = [188%float; 189%float; 190%float; 191%float; 192%float; 193%float;
       194%float; 195%float; 196%float; 197%float; 198%float; 199%float].
Proof.
  destruct (get_friday_data_fridays noon_today (last_days 100)) as (H & _ & Ha).
  split.
  - destruct H as (sel & Hsel & _ & Hlen & Hall); [by vm_compute|].
    exists sel. split_and!; [exact Hsel | rewrite Hlen; vm_compute; reflexivity |].
    eapply Forall_impl; [exact Hall|]. by intros r (_ & ? & _).
  - rewrite Ha. vm_compute. reflexivity.
Defined.

(** On the crypto path the trend reads the first 78 points of the 90-day
    window only: two histories whose windows agree on them have the same
    trend, whatever follows. *)
Theorem get_crypto_friday_data_first_78 (now : Z) (price_data price_data' : list (Z * float)) :
  take 78 (recent_prices now price_data) = take 78 (recent_prices now price_data') →
  get_crypto_friday_data now price_data = get_crypto_friday_data now price_data'.
Proof.
  intros Ht. rewrite !get_crypto_friday_data_take.
  set (w := recent_prices now price_data) in *.
  set (w' := recent_prices now price_data') in *.
  assert (∀ v : list (Z * float),
            length (take 12 (at_indices v (range_step (length v) 7)))
            = min 12 ((length v + 6) / 7)) as Hlen.
  { intros v. rewrite length_take, length_at_indices by (apply range_step_bound; lia).
    rewrite length_range_step. do 2 f_equal. lia. }
  assert (∀ (v : list (Z * float)) k, k < min 12 ((length v + 6) / 7) →
            take 12 (at_indices v (range_step (length v) 7)) !! k
            = take 78 v !! (k * 7)) as Hk.
  { intros v k Hlt. rewrite lookup_take_lt by lia.
    rewrite (at_indices_lookup _ _ k (k * 7)); [|apply range_step_bound; lia|].
    - by rewrite lookup_take_lt by lia.
    - apply range_step_lookup.
      replace (length v + 7 - 1) with (length v + 6) by lia. lia. }
  assert (min 12 ((length w + 6) / 7) = min 12 ((length w' + 6) / 7)) as Hm.
  { assert (length (take 78 w) = length (take 78 w')) as Hl by (by rewrite Ht).
    rewrite !length_take in Hl.
    destruct (decide (length w < 78)), (decide (length w' < 78)).
    - replace (length w') with (length w) by lia. done.
    - lia.
    - lia.
    - assert (12 ≤ (length w + 6) / 7) by (apply Nat.div_le_lower_bound; lia).
      assert (12 ≤ (length w' + 6) / 7) by (apply Nat.div_le_lower_bound; lia).
      lia. }
  do 2 f_equal. apply list_eq. intros k.
  destruct (decide (k < min 12 ((length w + 6) / 7))) as [Hlt|Hge].
  - rewrite (Hk w k Hlt), (Hk w' k) by lia. by rewrite Ht.
  - rewrite !lookup_ge_None_2; [done | rewrite Hlen; lia..].
Qed.

Lemma get_crypto_friday_data_first_78_witness :
  get_crypto_friday_data noon_today (take 88 hundred_prices)
  = get_crypto_friday_data noon_today hundred_prices.
Proof.
  apply get_crypto_friday_data_first_78. vm_compute. reflexivity.
Defined.

(* ===================================================================== *)
(** ** The grid and the entry point *)
(* ===================================================================== *)

Lemma failing_or_outcome W tickers :
  length (List.filter (failing W) tickers) + length (omap (outcome W) tickers)
  = length tickers.
Proof.
  induction tickers as [|t rest IH]; [done|].
  cbn [List.filter omap list_omap]. unfold failing at 1.
  destruct (outcome W t); simpl; lia.
Qed.

Lemma Forall_sublist_of {A} (P : A → Prop) (l1 l2 : list A) :
  l1 `sublist_of` l2 → Forall P l2 → Forall P l1.
Proof.
  intros Hs Hl. apply Forall_forall. intros x Hx.
  rewrite Forall_forall in Hl. apply Hl. by eapply elem_of_sublist.
Qed.

Lemma report_error_lines rejects line out r :
  fetcher_line line → report_error rejects line = (out, r) → Forall fetcher_line out.
Proof.
  intros Hl. unfold report_error, console_print.
  destruct (rejects line); intros [= <- _]; by repeat constructor.
Qed.

Lemma print_lines_sublist rejects lines out r :
  print_lines rejects lines = (out, r) → out `sublist_of` lines.
Proof.
  revert out r. induction lines as [|line rest IH]; intros out r.
  - by intros [= <- _].
  - cbn [print_lines]. unfold console_print.
    destruct (rejects line); cbn [and_then].
    + intros [= <- _]. apply sublist_nil_l.
    + destruct (print_lines rejects rest) as [later r'] eqn:E.
      intros [= <- _]. apply sublist_skip. by eapply IH.
Qed.

(** The fetchers print lines of their own only, also when printing raises. *)
Lemma fetch_on_lines rejects W ticker out r :
  fetch_on rejects W ticker = (out, r) → Forall fetcher_line out.
Proof.
  unfold fetch_on. destruct (provider_of ticker).
  - unfold get_stock_data_on.
    pose proof (get_stock_data_lines W ticker) as Hl. unfold get_stock_data in Hl.
    destruct (stock_body W ticker) as [[lines data]|e]; cbn [fst] in Hl.
    + destruct (print_lines rejects lines) as [printed [[]|e]] eqn:E.
      * intros [= <- _]. eapply Forall_sublist_of; [|exact Hl].
        by eapply print_lines_sublist.
      * cbn [and_then].
        destruct (report_error rejects (ErrorFetchingStock ticker e)) as [later r'] eqn:E'.
        intros [= <- _]. apply Forall_app. split.
        -- eapply Forall_sublist_of; [|exact Hl]. by eapply print_lines_sublist.
        -- eapply report_error_lines; [|exact E']. exact I.
    + apply report_error_lines. exact I.
  - unfold get_crypto_data_on.
    destruct (crypto_body W ticker) as [data|e].
    + intros [= <- _]. constructor.
    + apply report_error_lines. exact I.
Qed.

(** When the loop ends without an exception, every ticker has added a
    snapshot to [data_list] or printed its "Failed to fetch data" line. *)
Lemma fetch_loop_on_accounts rejects W tickers data_list out final :
  fetch_loop_on rejects W tickers data_list = (out, Ok final) →
  shown out = []
  ∧ length (reported out) + length final = length data_list + length tickers.
Proof.
  revert data_list out final.
  induction tickers as [|t rest IH]; intros data_list out final.
  - intros [= <- <-]. simpl. split; [done | lia].
  - cbn [fetch_loop_on].
    destruct (fetch_on rejects W t) as [printed [[d|]|e]] eqn:E; cbn [and_then].
    + apply fetch_on_lines in E.
      destruct (fetch_loop_on rejects W rest (data_list ++ [d])) as [later r] eqn:El.
      intros [= <- ->]. apply IH in El as [Hs Hl].
      rewrite reported_app, shown_app, Hs.
      rewrite reported_fetcher_lines, shown_fetcher_lines by done.
      rewrite length_app in Hl. simpl in *. split; [done | lia].
    + apply fetch_on_lines in E. unfold console_print.
      destruct (rejects (FailedToFetch t)); cbn [and_then]; [by intros [= _ ?]|].
      destruct (fetch_loop_on rejects W rest data_list) as [later r] eqn:El.
      intros [= <- ->]. apply IH in El as [Hs Hl].
      change (printed ++ FailedToFetch t :: later)
        with (printed ++ [FailedToFetch t] ++ later).
      rewrite !reported_app, !shown_app, Hs.
      rewrite reported_fetcher_lines, shown_fetcher_lines by done.
      simpl in *. split; [done | lia].
    + by intros [= _ ?].
Qed.

Lemma print_rows_on_shown rejects rows out :
  print_rows_on rejects rows = (out, Ok tt) →
  reported out = [] ∧ shown out = mjoin rows.
Proof.
  revert out. induction rows as [|row_panels rest IH]; intros out.
  - by intros [= <-].
  - cbn [print_rows_on]. unfold console_print.
    destruct (rejects (PanelRow row_panels)); cbn [and_then]; [by intros [= _ ?]|].
    destruct (print_rows_on rejects rest) as [later [[]|e]] eqn:E; [|by intros [= _ ?]].
    intros [= <-]. destruct (IH later eq_refl) as [Hr Hs].
    change (mjoin (row_panels :: rest)) with (row_panels ++ mjoin rest).
    change (PanelRow row_panels :: BlankLine :: later)
      with ([PanelRow row_panels; BlankLine] ++ later).
    rewrite reported_app, shown_app, Hr, Hs. split; [done|].
    change (shown [PanelRow row_panels; BlankLine]) with (row_panels ++ []).
    by rewrite app_nil_r.
Qed.

Lemma print_rows_rows_of panels :
  print_rows panels = rows_of panels ≫= fun row_panels => [PanelRow row_panels; BlankLine].
Proof.
  unfold print_rows, rows_of.
  induction (range_step (length panels) max_tickers_per_row) as [|i l IH]; [done|].
  rewrite !fmap_cons, bind_cons.
  change (mjoin (?x :: ?l)) with (x ++ mjoin l). by rewrite IH.
Qed.

Lemma shown_rows (rows : list (list Panel)) :
  shown (rows ≫= fun row_panels => [PanelRow row_panels; BlankLine]) = mjoin rows.
Proof.
  induction rows as [|row_panels rest IH]; [done|].
  rewrite bind_cons, shown_app, IH.
  change (mjoin (row_panels :: rest)) with (row_panels ++ mjoin rest).
  cbn. by rewrite app_nil_r.
Qed.

Lemma mjoin_rows_of panels : mjoin (rows_of panels) = panels.
Proof. by rewrite <- shown_rows, <- print_rows_rows_of, shown_print_rows. Qed.

(** Whenever [display_grid] returns, on whatever console, every ticker of
    the batch is accounted for exactly once, by a "Failed to fetch data"
    line or by a panel. *)
Theorem display_grid_accounts (rejects : Line → bool) (W : World)
    (tickers : list string) (out : list Line) :
  display_grid_on rejects W tickers = (out, Ok tt) →
  length (reported out) + length (shown out) = length tickers.
Proof.
  unfold display_grid_on. cbn [and_then].
  destruct (fetch_loop_on rejects W tickers []) as [printed [data_list|e]] eqn:E;
    cbn [and_then]; [|by intros [= _ ?]].
  apply fetch_loop_on_accounts in E as [Hs Hl]. simpl in Hl.
  destruct data_list as [|d data_list]; cbn [empty].
  - intros [= <-]. cbn [app]. change (ClearScreen :: ?l) with ([ClearScreen] ++ l).
    rewrite !reported_app, !shown_app, Hs. simpl in *. rewrite !length_app. simpl. lia.
  - destruct (print_rows_on rejects (rows_of (create_ticker_panel <$> d :: data_list)))
      as [rows r] eqn:Er.
    intros [= <- ->]. apply print_rows_on_shown in Er as [Hrr Hrs].
    cbn [app]. change (ClearScreen :: ?l) with ([ClearScreen] ++ l).
    rewrite !reported_app, !shown_app, Hs, Hrr, Hrs, mjoin_rows_of.
    rewrite !length_app, length_fmap. simpl in *. lia.
Qed.

Lemma display_grid_accounts_witness :
  ∃ out, display_grid_on rejects_closing_tag patchy_world ["AAPL"; "BAD"; "btc"]
         = (out, Ok tt)
         ∧ reported out = ["BAD"]
         ∧ length (reported out) + length (shown out) = 3.
Proof.
  destruct (display_grid_on rejects_closing_tag patchy_world ["AAPL"; "BAD"; "btc"])
    as [out r] eqn:E.
  assert (r = Ok tt) as -> by (vm_compute in E; by injection E as _ <-).
  exists out. split_and!; [done | | by apply (display_grid_accounts _ _ _ _ E)].
  apply (f_equal fst) in E. cbn [fst] in E. subst out. vm_compute. reflexivity.
Defined.

(** [run] refuses a batch of more than 12 tickers as a whole: one line is
    printed, nothing is fetched, reported or shown.  A batch of at most 12
    tickers is displayed, and then at most 12 panels are shown. *)
Theorem run_cap (W : World) (tickers : list string) :
  (12 < length tickers → run W tickers = [MaximumTickersAllowed 12])
  ∧ (length tickers ≤ 12 →
     run W tickers = GridLine <$> display_grid W tickers
     ∧ length (shown (display_grid W tickers)) ≤ 12).
Proof.
  unfold run, max_tickers. split; intros H.
  - by replace (12 <? length tickers) with true by (symmetry; apply Nat.ltb_lt; lia).
  - replace (12 <? length tickers) with false by (symmetry; apply Nat.ltb_ge; lia).
    split; [done|]. destruct (display_grid_reported_shown W tickers) as [_ ->].
    rewrite length_fmap. pose proof (failing_or_outcome W tickers). lia.
Qed.

Lemma run_cap_witness :
  run patchy_world (replicate 13 "AAPL") = [MaximumTickersAllowed 12]
  ∧ length (shown (display_grid patchy_world ["AAPL"; "BAD"; "btc"])) ≤ 12.
Proof.
  split.
  - apply (run_cap patchy_world (replicate 13 "AAPL")). vm_compute. lia.
  - apply (run_cap patchy_world ["AAPL"; "BAD"; "btc"]). vm_compute. lia.
Defined.

(** The grid: the lines printed are those of [ceil (n / 4)] rows of
    panels, each row followed by an empty line; every row but the last
    holds 4 panels, the last between 1 and 4, and the rows together are the
    panels, in order. *)
Theorem print_rows_layout (panels : list Panel) :
  ∃ rows : list (list Panel),
    print_rows panels = rows ≫= (fun row_panels => [PanelRow row_panels; BlankLine])
    ∧ length rows = (length panels + 3) / 4
    ∧ mjoin rows = panels
    ∧ Forall (fun row_panels => 1 ≤ length row_panels ≤ 4) rows
    ∧ ∀ k row_panels,
        rows !! k = Some row_panels → S k < length rows → length row_panels = 4.
Proof.
  exists (rows_of panels).
  assert (length (rows_of panels) = (length panels + 3) / 4) as Hlen.
  { unfold rows_of, max_tickers_per_row. rewrite length_fmap, length_range_step.
    f_equal. lia. }
  split_and!; [apply print_rows_rows_of | exact Hlen | apply mjoin_rows_of | |].
  - unfold rows_of, max_tickers_per_row. apply Forall_fmap.
    eapply Forall_impl; [apply (range_step_bound (length panels) 4); lia|].
    intros i Hi. unfold compose. simpl in *. rewrite length_take, length_drop. lia.
  - intros k row_panels Hk Hlt. rewrite Hlen in Hlt.
    unfold rows_of, max_tickers_per_row in Hk.
    rewrite list_lookup_fmap, range_step_lookup in Hk
      by (replace (length panels + 4 - 1) with (length panels + 3) by lia; lia).
    injection Hk as <-. rewrite length_take, length_drop.
    pose proof (Nat.Div0.mul_div_le (length panels + 3) 4). lia.
Qed.

Lemma print_rows_layout_witness :
  print_rows (replicate 5 (create_ticker_panel
                             (mkSnapshot "AAPL" 5 (mkChanges 0 0 0 0) [] stock)))
  = let panel := create_ticker_panel (mkSnapshot "AAPL" 5 (mkChanges 0 0 0 0) [] stock) in
    [PanelRow [panel; panel; panel; panel]; BlankLine; PanelRow [panel]; BlankLine].
Proof.
  destruct (print_rows_layout
              (replicate 5 (create_ticker_panel
                              (mkSnapshot "AAPL" 5 (mkChanges 0 0 0 0) [] stock))))
    as (rows & -> & Hlen & Hjoin & Hall & Hfull).
  destruct rows as [|r1 [|r2 [|r3 rows]]]; try (vm_compute in Hlen; discriminate Hlen).
  pose proof (Hfull 0 r1 eq_refl ltac:(simpl; lia)) as H1.
  destruct r1 as [|p1 [|p2 [|p3 [|p4 [|p5 r1]]]]]; try discriminate H1.
  cbn in Hjoin. rewrite app_nil_r in Hjoin.
  injection Hjoin as -> -> -> -> ->. reflexivity.
Defined.

(* ===================================================================== *)
(** ** Configuration *)
(* ===================================================================== *)

Lemma merge_items_lookup (config : gmap string entry) (items : list (string * entry)) :
  NoDup items.*1 →
  (∀ key u, (key, Dict u) ∈ items → ∀ v, config !! key ≠ Some (Scalar v)) →
  ∃ config', merge_items config items = (config', true)
             ∧ ∀ key, config' !! key
                      = merged ((list_to_map items : gmap string entry) !! key)
                               (config !! key).
Proof.
  revert config. induction items as [|[k v] items IH]; intros config Hnd Hsc.
  { exists config. split; [done|]. intros key. unfold list_to_map. simpl.
    by rewrite lookup_empty. }
  cbn [fmap list_fmap fst] in Hnd. apply NoDup_cons in Hnd as [Hk Hnd].
  assert (∃ config1, merge_item config k v = Some config1
                     ∧ config1 = <[k := default v (merged (Some v) (config !! k))]> config)
    as (config1 & Hm & Hc1).
  { unfold merge_item, merged.
    destruct (config !! k) as [[s|d]|] eqn:Hck, v as [s'|u]; try by eexists.
    exfalso. by eapply (Hsc k u); [left|]. }
  cbn [merge_items]. rewrite Hm.
  destruct (IH config1 Hnd) as (config' & Hmi & Hl).
  { intros key u Hin s. rewrite Hc1, lookup_insert_ne.
    - apply (Hsc key u). by right.
    - intros <-. apply Hk. apply list_elem_of_fmap. by exists (k, Dict u). }
  exists config'. split; [done|]. intros key. rewrite Hl.
  cbn [list_to_map foldr uncurry fst snd].
  destruct (decide (key = k)) as [->|Hne].
  - rewrite lookup_insert_eq, (not_elem_of_list_to_map_1 _ k Hk).
    rewrite Hc1, lookup_insert_eq. unfold merged.
    by destruct v, (config !! k) as [[]|].
  - by rewrite lookup_insert_ne, Hc1, lookup_insert_ne by done.
Qed.

Lemma default_config_dicts key v : default_config !! key ≠ Some (Scalar v).
Proof.
  unfold default_config.
  rewrite !list_to_map_cons, list_to_map_nil.
  rewrite !lookup_insert. by repeat case_decide.
Qed.

(** A configuration file with distinct keys is merged without error,
    section by section: a dict given for a section of [default_config] is
    laid over that section, any other value replaces the section, a new
    key is added, and the sections the file does not name are kept. *)
Theorem load_config_merge (items : list (string * entry)) :
  NoDup items.*1 →
  ∃ config, load_config (Object items) = ([], config)
            ∧ ∀ key, config !! key
                     = merged ((list_to_map items : gmap string entry) !! key)
                              (default_config !! key).
Proof.
  intros Hnd. unfold load_config.
  destruct (merge_items_lookup default_config items Hnd) as (config & -> & Hl).
  { intros key u _ v. apply default_config_dicts. }
  by exists config.
Qed.

Lemma load_config_merge_witness :
  ∃ config,
    load_config (Object [("currency", Dict {[ "symbol" := JStr "EUR" ]});
                         ("display", Scalar (JNum 3))]) = ([], config)
    ∧ config !! "display" = Some (Scalar (JNum 3))
    ∧ config !! "symbols" = default_config !! "symbols".
Proof.
  destruct (load_config_merge [("currency", Dict {[ "symbol" := JStr "EUR" ]});
                               ("display", Scalar (JNum 3))]) as (config & Hc & Hl).
  { apply (bool_decide_unpack _). by vm_compute. }
  exists config. split; [exact Hc|]. rewrite !Hl. split; by vm_compute.
Defined.

(** Reading a setting of [default_config] after the merge: it has its
    default value when the file does not name its section, the file's
    value or else the default when the file gives the section a dict, and
    the read raises [TypeError] when the file gives the section anything
    else. *)
Theorem load_config_setting (items : list (string * entry)) (section key : string)
    (d : gmap string jval) (v : jval) :
  NoDup items.*1 →
  default_config !! section = Some (Dict d) →
  d !! key = Some v →
  ∃ config,
    load_config (Object items) = ([], config)
    ∧ config_get config section key
      = match (list_to_map items : gmap string entry) !! section with
        | None => Ok v
        | Some (Dict u) => Ok (default v (u !! key))
        | Some (Scalar _) => Raise TypeError
        end.
Proof.
  intros Hnd Hs Hk. unfold load_config.
  destruct (merge_items_lookup default_config items Hnd) as (config & -> & Hl).
  { intros k u _ s. apply default_config_dicts. }
  exists config. split; [done|].
  unfold config_get. rewrite Hl, Hs. unfold merged.
  destruct (list_to_map items !! section) as [[s|u]|]; [done| |].
  - unfold getitem. rewrite lookup_union.
    destruct (u !! key) as [x|]; rewrite Hk; done.
  - unfold getitem. by rewrite Hk.
Qed.

Lemma load_config_setting_witness :
  ∃ config,
    load_config (Object [("currency", Dict {[ "symbol" := JStr "EUR" ]});
                         ("display", Scalar (JNum 3))]) = ([], config)
    ∧ config_get config "currency" "symbol" = Ok (JStr "EUR")
    ∧ config_get config "currency" "default" = Ok (JStr "USD")
    ∧ config_get config "display" "max_tickers" = Raise TypeError.
Proof.
  set (items := [("currency", Dict {[ "symbol" := JStr "EUR" ]});
                 ("display", Scalar (JNum 3))]).
  assert (NoDup items.*1) as Hnd by (apply (bool_decide_unpack _); by vm_compute).
  destruct (load_config_setting items "currency" "symbol" _ (JStr "$") Hnd eq_refl eq_refl)
    as (config & Hc & H1).
  destruct (load_config_setting items "currency" "default" _ (JStr "USD") Hnd eq_refl eq_refl)
    as (config2 & Hc2 & H2).
  destruct (load_config_setting items "display" "max_tickers" _ (JNum 12) Hnd eq_refl eq_refl)
    as (config3 & Hc3 & H3).
  rewrite Hc in Hc2, Hc3. injection Hc2 as <-. injection Hc3 as <-.
  exists config. split_and!; [exact Hc | rewrite H1 | rewrite H2 | rewrite H3];
    by vm_compute.
Defined.

(* ===================================================================== *)
(** ** The chart *)
(* ===================================================================== *)

Lemma length_chart_line data max_price price_range height i :
  length (chart_line data max_price price_range height i) = length data.
Proof. unfold chart_line. by rewrite length_fmap. Qed.

(** The shape of the chart: fewer than two prices give "No data"; when
    lines are drawn there are [height] of them, each as wide as the data,
    and [width] plays no part. *)
Theorem create_ascii_chart_shape (data : list float) (width height : nat) :
  (length data < 2 → create_ascii_chart data width height = NoData)
  ∧ (∀ lines,
       create_ascii_chart data width height = ChartLines lines →
       2 ≤ length data
       ∧ length lines = height
       ∧ Forall (fun line => length line = length data) lines
       ∧ ∀ width', create_ascii_chart data width' height = ChartLines lines).
Proof.
  unfold create_ascii_chart. split.
  - intros Hl. destruct data as [|x [|y rest]]; [done | done | simpl in Hl; lia].
  - intros lines.
    destruct (empty data || (length data <? 2)) eqn:Hs; [done|].
    apply orb_false_elim in Hs as [_ Hs]. apply Nat.ltb_ge in Hs.
    destruct (py_min data) as [min_price|]; [|done].
    destruct (py_max data) as [max_price|]; [|done].
    destruct (PrimFloat.eqb _ 0%float); [done|].
    intros [= <-]. split_and!; [done | | | done].
    + by rewrite length_reverse, length_fmap, length_seq.
    + apply Forall_reverse, Forall_fmap, Forall_forall. intros i _. simpl.
      apply length_chart_line.
Qed.

Lemma create_ascii_chart_shape_witness :
  ∃ lines, create_ascii_chart [1%float; 3%float; 2%float] 20 8 = ChartLines lines
           ∧ length lines = 8
           ∧ Forall (fun line => length line = 3) lines.
Proof.
  destruct (create_ascii_chart_shape [1%float; 3%float; 2%float] 20 8) as [_ H].
  destruct (create_ascii_chart [1%float; 3%float; 2%float] 20 8) as [| |lines] eqn:E;
    [vm_compute in E; discriminate E..|].
  exists lines. destruct (H lines eq_refl) as (_ & Hl & Hw & _). by split_and!.
Defined.

Lemma py_min_replicate n x : py_min (replicate (S n) x) = Some x.
Proof.
  cbn [replicate py_min]. f_equal.
  induction n as [|n IH]; [done|]. cbn [replicate fold_left].
  assert (PrimFloat.ltb x x = false) as ->; [|done].
  rewrite ltb_spec. unfold SFltb.
  destruct (Prim2SF x) as [s|s| |s m e]; simpl; try done; try by destruct s.
  destruct s; rewrite Z.compare_refl, Pos.compare_cont_refl; done.
Qed.

Lemma py_max_replicate n x : py_max (replicate (S n) x) = Some x.
Proof.
  cbn [replicate py_max]. f_equal.
  induction n as [|n IH]; [done|]. cbn [replicate fold_left].
  assert (PrimFloat.ltb x x = false) as ->; [|done].
  rewrite ltb_spec. unfold SFltb.
  destruct (Prim2SF x) as [s|s| |s m e]; simpl; try done; try by destruct s.
  destruct s; rewrite Z.compare_refl, Pos.compare_cont_refl; done.
Qed.

(** A series of two or more equal finite prices is drawn as the flat line
    of [width] dashes. *)
Theorem create_ascii_chart_flat (n : nat) (x : float) (width height : nat) :
  2 ≤ n → is_finite x = true →
  create_ascii_chart (replicate n x) width height = FlatLine width.
Proof.
  intros Hn Hf. destruct n as [|[|n]]; [lia..|].
  unfold create_ascii_chart.
  rewrite py_min_replicate, py_max_replicate.
  change (empty (replicate (S (S n)) x)) with false.
  rewrite length_replicate. cbn [orb Nat.ltb Nat.leb].
  assert (PrimFloat.eqb (PrimFloat.sub x x) 0%float = true) as ->; [|done].
  rewrite FloatAxioms.eqb_spec, sub_spec.
  change (Prim2SF 0%float) with (S754_zero false).
  revert Hf. unfold is_finite, is_nan, is_infinity.
  rewrite !FloatAxioms.eqb_spec, abs_spec.
  change (Prim2SF infinity) with (S754_infinity false).
  unfold SF64sub, SFsub.
  destruct (Prim2SF x) as [s|s| |s m e]; simpl; try done.
  - by destruct s.
  - by destruct s.
  - intros _. rewrite Z.sub_diag. done.
Qed.

Lemma create_ascii_chart_flat_witness :
  create_ascii_chart [5%float; 5%float; 5%float] 20 8 = FlatLine 20.
Proof.
  apply (create_ascii_chart_flat 3 5%float 20 8); [lia | reflexivity].
Defined.

Lemma float_of_nat_finite h :
  1 ≤ h ≤ 1024 → ∃ m e, Prim2SF (float_of_nat h) = S754_finite false m e.
Proof.
  intros Hh.
  assert (forallb (fun h => match Prim2SF (float_of_nat h) with
                            | S754_finite false _ _ => true
                            | _ => false
                            end) (seq 1 1024) = true) as Hall by (by vm_compute).
  rewrite forallb_forall in Hall. specialize (Hall h).
  destruct (Prim2SF (float_of_nat h)) as [| | |[] m e]; try (discriminate Hall; apply in_seq; lia).
  by eauto.
Qed.

(** Subtracting a zero leaves every comparison unchanged. *)
Lemma leb_sub_zero M z s p :
  Prim2SF z = S754_zero s → PrimFloat.leb (PrimFloat.sub M z) p = PrimFloat.leb M p.
Proof.
  intros Hz. rewrite !leb_spec, sub_spec, Hz. unfold SF64sub, SFsub.
  destruct (Prim2SF M) as [sM|sM| |sM mM eM]; try done.
  unfold SFleb, SFcompare.
  by destruct sM, s, (Prim2SF p).
Qed.

(** The last line of the chart is the line of the threshold [max_price]:
    it has a block exactly under the prices that are not below the
    maximum. *)
Theorem create_ascii_chart_last_line (data : list float) (width height : nat)
    (lines : list (list bool)) (min_price max_price : float) :
  create_ascii_chart data width height = ChartLines lines →
  py_min data = Some min_price →
  py_max data = Some max_price →
  is_finite (PrimFloat.sub max_price min_price) = true →
  1 ≤ height ≤ 1024 →
  last lines = Some ((fun price => PrimFloat.leb max_price price) <$> data).
Proof.
  unfold create_ascii_chart. intros Hc Hmin Hmax Hf Hh.
  destruct (empty data || (length data <? 2)); [done|].
  rewrite Hmin, Hmax in Hc.
  destruct (PrimFloat.eqb (PrimFloat.sub max_price min_price) 0%float) eqn:Hz; [done|].
  injection Hc as <-.
  destruct (finite_nonzero_spec _ Hf Hz) as (s & m & e & Hr).
  destruct (float_of_nat_finite height Hh) as (mh & eh & Hh').
  destruct height as [|h]; [lia|].
  change (seq 0 (S h)) with (0 :: seq 1 h). rewrite fmap_cons, reverse_cons, last_snoc.
  f_equal. unfold chart_line. apply list_fmap_ext. intros _ p _.
  apply (leb_sub_zero _ _ (xorb (xorb s false) false)).
  rewrite div_spec, mul_spec, Hr, Hh'.
  change (Prim2SF (float_of_nat 0)) with (S754_zero false).
  reflexivity.
Qed.

Lemma create_ascii_chart_last_line_witness :
  ∃ lines, create_ascii_chart [1%float; 3%float; 2%float; 3%float] 20 8 = ChartLines lines
           ∧ last lines = Some [false; true; false; true].
Proof.
  destruct (create_ascii_chart [1%float; 3%float; 2%float; 3%float] 20 8)
    as [| |lines] eqn:E; [vm_compute in E; discriminate E..|].
  exists lines. split; [reflexivity|].
  rewrite (create_ascii_chart_last_line _ _ _ _ 1%float 3%float E);
    [reflexivity | reflexivity | reflexivity | reflexivity | lia].
Defined.
